(** * ECLPvtCurveCollection: unit-aware PVT curves and dynamic properties

    A shallow embedding of [opm/utility/ECLPvtCurveCollection.cpp] and the
    properties of its request validation, region resolution and unit
    conversion dispatch.

    The collaborators of the translation unit (PVT interpolants, unit
    systems, single-quantity converters, the grid and the INIT file) live in
    other files; they are taken as parameters of the development. *)

From Stdlib Require Import ZArith List String Bool Lia.
Import ListNotations.
Local Open Scope string_scope.
Local Open Scope Z_scope.

(** ** Outcomes of a call

    A call either returns a value or stops: with a C++ exception, a failed
    [assert], or by reading through a null pointer or outside a vector (both
    undefined in C++, and kept apart from a normal return here). *)

Inductive failure : Type :=
| invalid_argument (what : string)
| assertion_failed (expr : string)
| null_dereference
| out_of_range_access.

Inductive outcome (A : Type) : Type :=
| Return (a : A)
| Raise (f : failure).

Arguments Return {A} a.
Arguments Raise {A} f.

Definition bind {A B : Type} (c : outcome A) (k : A -> outcome B) : outcome B :=
  match c with
  | Return a => k a
  | Raise f => Raise f
  end.

Notation "x <- c ;; k" := (bind c (fun x => k))
  (at level 61, c at next level, right associativity).

(** Dereferencing a possibly null pointer. *)
Definition deref {A : Type} (p : option A) : outcome A :=
  match p with
  | Some a => Return a
  | None => Raise null_dereference
  end.

Definition is_null {A : Type} (p : option A) : bool :=
  match p with
  | Some _ => false
  | None => true
  end.

(** ** Machine integers

    [int] is 32 bits wide and [std::vector<int>::size_type] 64 bits (LP64).
    Values are carried as [Z]; the conversions and the subtraction of the
    source are written with their wrap-around. *)

Definition int_min : Z := - 2 ^ 31.
Definition int_max : Z := 2 ^ 31 - 1.
Definition is_int (z : Z) : Prop := int_min <= z <= int_max.

(** Reduction of an integer to the range of [int]. *)
Definition to_int (z : Z) : Z := (z + 2 ^ 31) mod 2 ^ 32 - 2 ^ 31.

(** [a - b] on [int]. *)
Definition int_sub (a b : Z) : Z := to_int (a - b).

Definition size_modulus : Z := 2 ^ 64.

(** [static_cast<size_type>(i)]. *)
Definition static_cast_size (i : Z) : Z := i mod size_modulus.

(** [std::vector<int>::max_size()]: no vector of [int] holds more elements
    than [PTRDIFF_MAX / sizeof(int)]. *)
Definition vector_max_size : Z := (2 ^ 63 - 1) / 4.

(** [v[i]] for a vector of [int] and an [int] index, which [operator[]]
    receives as a [size_type]. *)
Definition vector_at {A : Type} (v : list A) (i : Z) : outcome A :=
  match nth_error v (Z.to_nat (static_cast_size i)) with
  | Some a => Return a
  | None => Raise out_of_range_access
  end.

Definition is_empty {A : Type} (v : list A) : bool :=
  match v with
  | [] => true
  | _ :: _ => false
  end.

(** ** Enumerations *)

Module RawCurve.

(** [Opm::ECLPVT::RawCurve].  An [enum class] object may hold any value of
    its underlying integer type; [Unrecognised] stands for the values that
    equal none of the three enumerators. *)
Inductive t : Type :=
| FVF
| Viscosity
| SaturatedState
| Unrecognised (value : Z).

Definition eqb (a b : t) : bool :=
  match a, b with
  | FVF, FVF => true
  | Viscosity, Viscosity => true
  | SaturatedState, SaturatedState => true
  | Unrecognised x, Unrecognised y => Z.eqb x y
  | _, _ => false
  end.

Definition recognised (c : t) : bool :=
  match c with
  | Unrecognised _ => false
  | _ => true
  end.

End RawCurve.

Module ECLPhaseIndex.

(** Modelled from the spec: the declaration of [Opm::ECLPhaseIndex] is in a
    header that is not part of this translation unit.  Liquid (oil) and
    Vapour (gas) are the two phase selectors this file accepts; [Other]
    stands for every other value of the enumeration. *)
Inductive t : Type :=
| Liquid
| Vapour
| Other (value : Z).

Definition eqb (a b : t) : bool :=
  match a, b with
  | Liquid, Liquid => true
  | Vapour, Vapour => true
  | Other x, Other y => Z.eqb x y
  | _, _ => false
  end.

End ECLPhaseIndex.

Module Convert.

(** The converter classes of [Opm::ECLUnits::Convert] this file
    instantiates. *)
Inductive Quantity : Type :=
| Pressure
| OilFVF
| GasFVF
| Viscosity
| DissolvedGasOilRatio
| VaporisedOilGasRatio.

End Convert.

(** ** Collaborators

    What this translation unit uses of the rest of the library. *)

(** Sample values ([double], with the constant [0.0]), unit systems
    ([Opm::ECLUnits::UnitSystem]), and what a converter of a given quantity
    between two unit systems does to one sample. *)
Class UnitConversion : Type := {
  double : Type;
  zero : double;
  UnitSystem : Type;
  convertSample :
    Convert.Quantity -> UnitSystem -> UnitSystem -> double -> double
}.

(** Whether the file is compiled with [NDEBUG], which turns every [assert]
    into a no-op. *)
Class Build : Type := {
  NDEBUG : bool
}.

(** The interface the function templates [rawPvtCurve],
    [formationVolumeFactor] and [viscosity] require of their [PVTInterp]
    parameter.  The member functions belong to other translation units and
    may fail, e.g. on a region index outside their tables.  A graph is a pair
    of sample vectors, abscissas first. *)
Class PVTInterp {units : UnitConversion} (T : Type) : Type := {
  pvt_getPvtCurve :
    T -> RawCurve.t -> Z -> outcome (list (list double * list double));
  pvt_formationVolumeFactor :
    T -> Z -> list double -> list double -> outcome (list double);
  pvt_viscosity :
    T -> Z -> list double -> list double -> outcome (list double)
}.

(** The grid and the INIT file, with the queries the constructor makes;
    [Gas] and [Oil] are [Opm::ECLPVT::Gas] and [Opm::ECLPVT::Oil]. *)
Class ECLOutput {units : UnitConversion} (Gas Oil : Type) : Type := {
  ECLGraph : Type;
  ECLInitFileData : Type;
  rawLinearisedCellData : ECLGraph -> ECLInitFileData -> string -> list Z;
  numCells : ECLGraph -> nat;
  createGasPVTInterpolant : ECLInitFileData -> option Gas;
  createOilPVTInterpolant : ECLInitFileData -> option Oil;
  serialisedUnitConventions : ECLInitFileData -> option UnitSystem;
  internalUnitConventions : option UnitSystem
}.

(** ** The translation unit *)

Section Collection.

Context {units : UnitConversion} {build : Build}.
Context {Gas Oil : Type}.
Context {gasInterp : PVTInterp Gas} {oilInterp : PVTInterp Oil}.
Context {eclOutput : ECLOutput Gas Oil}.

(** [Opm::FlowDiagnostics::Graph]: abscissas [first], ordinates [second]. *)
Definition Graph : Type := (list double * list double)%type.

(** [assert(cond)]. *)
Definition assert_ (cond : bool) (expr : string) : outcome unit :=
  if NDEBUG then Return tt
  else if cond then Return tt
  else Raise (assertion_failed expr).

(** A converter object [Convert::Q().from(usysFrom).to(usysTo)]. *)
Record PhysicalQuantity : Type := cvrt {
  quantity : Convert.Quantity;
  usys_from : UnitSystem;
  usys_to : UnitSystem
}.

(** Modelled from the spec: [PhysicalQuantity::appliedTo] is defined in
    ECLPropertyUnitConversion, outside this file.  It converts the vector it
    is given in place, sample by sample (axis-wise scaling/offset). *)
Definition appliedTo (c : PhysicalQuantity) (x : list double) : list double :=
  map (convertSample (quantity c) (usys_from c) (usys_to c)) x.

(** A converter between the unit systems two owning pointers refer to,
    applied to [x]; both pointers are dereferenced. *)
Definition convertBetween (q : Convert.Quantity)
  (from to : option UnitSystem) (x : list double) : outcome (list double) :=
  f <- deref from ;;
  t <- deref to ;;
  Return (appliedTo (cvrt q f t) x).

Definition pvtnumVector (G : ECLGraph) (init : ECLInitFileData) : list Z :=
  let pvtnum := rawLinearisedCellData G init "PVTNUM" in
  if is_empty pvtnum then repeat 1 (numCells G) else pvtnum.

Definition emptyFDGraph : list Graph := [([], [])].

Definition rawPvtCurve {T : Type} {interp : PVTInterp T}
  (pvt : option T) (curve : RawCurve.t) (regID : Z) : outcome (list Graph) :=
  match pvt with
  | None => Return emptyFDGraph
  | Some p => pvt_getPvtCurve p curve regID
  end.

Definition formationVolumeFactor {T : Type} {interp : PVTInterp T}
  (pvt : option T) (regID : Z) (press R : list double)
  : outcome (list double) :=
  _ <- assert_ (negb (is_null pvt)) "pvt != nullptr" ;;
  p <- deref pvt ;;
  pvt_formationVolumeFactor p regID R press.

Definition viscosity {T : Type} {interp : PVTInterp T}
  (pvt : option T) (regID : Z) (press R : list double)
  : outcome (list double) :=
  _ <- assert_ (negb (is_null pvt)) "pvt != nullptr" ;;
  p <- deref pvt ;;
  pvt_viscosity p regID R press.

Definition gasProperty (pvt : option Gas) (property : RawCurve.t) (regID : Z)
  (Pg Rv : list double) : outcome (list double) :=
  if is_null pvt then Return []
  else
    _ <- assert_ (RawCurve.eqb property RawCurve.FVF
                  || RawCurve.eqb property RawCurve.Viscosity)
                 "property == FVF || property == Viscosity" ;;
    let pg := Pg in
    let rv := if is_empty Rv then repeat zero (List.length pg) else Rv in
    if RawCurve.eqb property RawCurve.FVF
    then formationVolumeFactor pvt regID pg rv
    else viscosity pvt regID pg rv.

Definition oilProperty (pvt : option Oil) (property : RawCurve.t) (regID : Z)
  (Po Rs : list double) : outcome (list double) :=
  if is_null pvt then Return []
  else
    _ <- assert_ (RawCurve.eqb property RawCurve.FVF
                  || RawCurve.eqb property RawCurve.Viscosity)
                 "property == FVF || property == Viscosity" ;;
    let po := Po in
    let rs := if is_empty Rs then repeat zero (List.length po) else Rs in
    if RawCurve.eqb property RawCurve.FVF
    then formationVolumeFactor pvt regID po rs
    else viscosity pvt regID po rs.

Definition convertCurve (curves : list Graph)
  (cvrt_x cvrt_y : PhysicalQuantity) : list Graph :=
  map (fun curve =>
         (appliedTo cvrt_x (fst curve), appliedTo cvrt_y (snd curve)))
      curves.

Definition is_oil_or_gas (phase : ECLPhaseIndex.t) : bool :=
  ECLPhaseIndex.eqb phase ECLPhaseIndex.Liquid
  || ECLPhaseIndex.eqb phase ECLPhaseIndex.Vapour.

Definition convertFvfCurve (curve : list Graph) (phase : ECLPhaseIndex.t)
  (usysFrom usysTo : UnitSystem) : outcome (list Graph) :=
  _ <- assert_ (is_oil_or_gas phase) "phase == Liquid || phase == Vapour" ;;
  if ECLPhaseIndex.eqb phase ECLPhaseIndex.Liquid then
    let cvrt_x := cvrt Convert.Pressure usysFrom usysTo in
    let cvrt_y := cvrt Convert.OilFVF usysFrom usysTo in
    Return (convertCurve curve cvrt_x cvrt_y)
  else
    let cvrt_y := cvrt Convert.GasFVF usysFrom usysTo in
    if (List.length curve <=? 1)%nat then
      let cvrt_x := cvrt Convert.Pressure usysFrom usysTo in
      Return (convertCurve curve cvrt_x cvrt_y)
    else
      let cvrt_x := cvrt Convert.VaporisedOilGasRatio usysFrom usysTo in
      Return (convertCurve curve cvrt_x cvrt_y).

Definition convertViscosityCurve (curve : list Graph) (phase : ECLPhaseIndex.t)
  (usysFrom usysTo : UnitSystem) : outcome (list Graph) :=
  _ <- assert_ (is_oil_or_gas phase) "phase == Liquid || phase == Vapour" ;;
  let cvrt_y := cvrt Convert.Viscosity usysFrom usysTo in
  if ECLPhaseIndex.eqb phase ECLPhaseIndex.Liquid
     || (List.length curve <=? 1)%nat then
    let cvrt_x := cvrt Convert.Pressure usysFrom usysTo in
    Return (convertCurve curve cvrt_x cvrt_y)
  else
    let cvrt_x := cvrt Convert.VaporisedOilGasRatio usysFrom usysTo in
    Return (convertCurve curve cvrt_x cvrt_y).

Definition convertSatStateCurve (curve : list Graph) (phase : ECLPhaseIndex.t)
  (usysFrom usysTo : UnitSystem) : outcome (list Graph) :=
  _ <- assert_ (is_oil_or_gas phase) "phase == Liquid || phase == Vapour" ;;
  let cvrt_x := cvrt Convert.Pressure usysFrom usysTo in
  if ECLPhaseIndex.eqb phase ECLPhaseIndex.Liquid then
    let cvrt_y := cvrt Convert.DissolvedGasOilRatio usysFrom usysTo in
    Return (convertCurve curve cvrt_x cvrt_y)
  else
    let cvrt_y := cvrt Convert.VaporisedOilGasRatio usysFrom usysTo in
    Return (convertCurve curve cvrt_x cvrt_y).

(** *** The class [ECLPvtCurveCollection] *)

Record ECLPvtCurveCollection : Type := {
  pvtnum_ : list Z;
  gas_ : option Gas;
  oil_ : option Oil;
  usys_native_ : option UnitSystem;
  usys_internal_ : option UnitSystem;
  usys_output_ : option UnitSystem
}.

(** The constructor; [usys_output_] is not in its initialiser list and
    starts out null. *)
Definition construct (G : ECLGraph) (init : ECLInitFileData)
  : ECLPvtCurveCollection :=
  {| pvtnum_ := pvtnumVector G init;
     gas_ := createGasPVTInterpolant init;
     oil_ := createOilPVTInterpolant init;
     usys_native_ := serialisedUnitConventions init;
     usys_internal_ := internalUnitConventions;
     usys_output_ := None |}.

Definition setOutputUnits (self : ECLPvtCurveCollection)
  (usys : option UnitSystem) : ECLPvtCurveCollection :=
  {| pvtnum_ := pvtnum_ self;
     gas_ := gas_ self;
     oil_ := oil_ self;
     usys_native_ := usys_native_ self;
     usys_internal_ := usys_internal_ self;
     usys_output_ := usys |}.

Definition isValidRequest (self : ECLPvtCurveCollection)
  (phase : ECLPhaseIndex.t) (activeCell : Z) : bool :=
  if negb (is_oil_or_gas phase) then false
  else static_cast_size activeCell <? Z.of_nat (List.length (pvtnum_ self)).

Definition convertToOutputUnits (self : ECLPvtCurveCollection)
  (graph : list Graph) (curve : RawCurve.t) (phase : ECLPhaseIndex.t)
  : outcome (list Graph) :=
  if is_null (usys_output_ self) then Return graph
  else
    _ <- assert_ (is_oil_or_gas phase) "phase == Liquid || phase == Vapour" ;;
    if RawCurve.eqb curve RawCurve.FVF then
      from <- deref (usys_internal_ self) ;;
      to <- deref (usys_output_ self) ;;
      convertFvfCurve graph phase from to
    else if RawCurve.eqb curve RawCurve.Viscosity then
      from <- deref (usys_internal_ self) ;;
      to <- deref (usys_output_ self) ;;
      convertViscosityCurve graph phase from to
    else if RawCurve.eqb curve RawCurve.SaturatedState then
      from <- deref (usys_internal_ self) ;;
      to <- deref (usys_output_ self) ;;
      convertSatStateCurve graph phase from to
    else Raise (invalid_argument "Internal Logic Error").

Definition getPvtCurve (self : ECLPvtCurveCollection) (curve : RawCurve.t)
  (phase : ECLPhaseIndex.t) (activeCell : Z) : outcome (list Graph) :=
  if negb (isValidRequest self phase activeCell) then Return emptyFDGraph
  else
    tag <- vector_at (pvtnum_ self) activeCell ;;
    let regID := int_sub tag 1 in
    if ECLPhaseIndex.eqb phase ECLPhaseIndex.Liquid then
      graph <- rawPvtCurve (oil_ self) curve regID ;;
      convertToOutputUnits self graph curve phase
    else
      _ <- assert_ (ECLPhaseIndex.eqb phase ECLPhaseIndex.Vapour)
                   "phase == Vapour" ;;
      graph <- rawPvtCurve (gas_ self) curve regID ;;
      convertToOutputUnits self graph curve phase.

Definition getDynamicPropertySI (self : ECLPvtCurveCollection)
  (property : RawCurve.t) (phase : ECLPhaseIndex.t) (activeCell : Z)
  (phasePress mixRatio : list double) : outcome (list double) :=
  if negb (isValidRequest self phase activeCell)
     || RawCurve.eqb property RawCurve.SaturatedState
  then Return []
  else
    tag <- vector_at (pvtnum_ self) activeCell ;;
    let regID := int_sub tag 1 in
    if ECLPhaseIndex.eqb phase ECLPhaseIndex.Liquid then
      oilProperty (oil_ self) property regID phasePress mixRatio
    else
      _ <- assert_ (ECLPhaseIndex.eqb phase ECLPhaseIndex.Vapour)
                   "phase == Vapour" ;;
      gasProperty (gas_ self) property regID phasePress mixRatio.

Definition getDynamicPropertyNative (self : ECLPvtCurveCollection)
  (property : RawCurve.t) (phase : ECLPhaseIndex.t) (activeCell : Z)
  (phasePress mixRatio : list double) : outcome (list double) :=
  if negb (isValidRequest self phase activeCell)
     || RawCurve.eqb property RawCurve.SaturatedState
  then Return []
  else
    _ <- assert_ (negb (is_null (usys_native_ self)))
                 "usys_native_ != nullptr" ;;
    _ <- assert_ (negb (is_null (usys_internal_ self)))
                 "usys_internal_ != nullptr" ;;
    phasePress <- convertBetween Convert.Pressure
                    (usys_native_ self) (usys_internal_ self) phasePress ;;
    mixRatio <- (if ECLPhaseIndex.eqb phase ECLPhaseIndex.Liquid then
                   convertBetween Convert.DissolvedGasOilRatio
                     (usys_native_ self) (usys_internal_ self) mixRatio
                 else
                   _ <- assert_ (ECLPhaseIndex.eqb phase ECLPhaseIndex.Vapour)
                                "phase == Vapour" ;;
                   convertBetween Convert.VaporisedOilGasRatio
                     (usys_native_ self) (usys_internal_ self) mixRatio) ;;
    prop <- getDynamicPropertySI self property phase activeCell
              phasePress mixRatio ;;
    if is_null (usys_output_ self) then Return prop
    else if RawCurve.eqb property RawCurve.Viscosity then
      convertBetween Convert.Viscosity
        (usys_internal_ self) (usys_output_ self) prop
    else
      _ <- assert_ (RawCurve.eqb property RawCurve.FVF) "property == FVF" ;;
      if ECLPhaseIndex.eqb phase ECLPhaseIndex.Vapour then
        convertBetween Convert.GasFVF
          (usys_internal_ self) (usys_output_ self) prop
      else
        _ <- assert_ (ECLPhaseIndex.eqb phase ECLPhaseIndex.Liquid)
                     "phase == Liquid" ;;
        convertBetween Convert.OilFVF
          (usys_internal_ self) (usys_output_ self) prop.


(** *** Reference definitions, in the words of the specification *)

(** A curve whose X axis was converted as quantity [qx] and whose Y axis was
    converted as quantity [qy], series by series. *)
Definition axesConverted (qx qy : Convert.Quantity)
  (usysFrom usysTo : UnitSystem) (curve : list Graph) : list Graph :=
  map (fun g => (map (convertSample qx usysFrom usysTo) (fst g),
                 map (convertSample qy usysFrom usysTo) (snd g)))
      curve.

(** Region resolution: the zero-based region of a cell is its one-based
    region tag less one. *)
Definition resolve (self : ECLPvtCurveCollection) (cellIndex : Z)
  : outcome Z :=
  tag <- vector_at (pvtnum_ self) cellIndex ;;
  Return (int_sub tag 1).

(** Evaluation against the interpolant that matches the phase: oil for
    Liquid, gas for Vapour. *)
Definition phaseCurve (self : ECLPvtCurveCollection) (curve : RawCurve.t)
  (phase : ECLPhaseIndex.t) (regID : Z) : outcome (list Graph) :=
  match phase with
  | ECLPhaseIndex.Liquid => rawPvtCurve (oil_ self) curve regID
  | _ => rawPvtCurve (gas_ self) curve regID
  end.

Definition phaseProperty (self : ECLPvtCurveCollection)
  (property : RawCurve.t) (phase : ECLPhaseIndex.t) (regID : Z)
  (phasePress mixRatio : list double) : outcome (list double) :=
  match phase with
  | ECLPhaseIndex.Liquid =>
      oilProperty (oil_ self) property regID phasePress mixRatio
  | _ => gasProperty (gas_ self) property regID phasePress mixRatio
  end.

(** The evaluation stage of [getPvtCurve] alone: the curve in internal (SI)
    units, before any conversion to output units. *)
Definition unconvertedPvtCurve (self : ECLPvtCurveCollection)
  (curve : RawCurve.t) (phase : ECLPhaseIndex.t) (activeCell : Z)
  : outcome (list Graph) :=
  if negb (isValidRequest self phase activeCell) then Return emptyFDGraph
  else
    regID <- resolve self activeCell ;;
    phaseCurve self curve phase regID.

(** The three stages of a native-units evaluation: inputs to internal units,
    evaluation in SI, result to output units when an output system is set. *)
Definition nativePipeline (self : ECLPvtCurveCollection)
  (native internal : UnitSystem)
  (property : RawCurve.t) (phase : ECLPhaseIndex.t) (activeCell : Z)
  (phasePress mixRatio : list double) : outcome (list double) :=
  let pressSI :=
    map (convertSample Convert.Pressure native internal) phasePress in
  let ratio := match phase with
               | ECLPhaseIndex.Liquid => Convert.DissolvedGasOilRatio
               | _ => Convert.VaporisedOilGasRatio
               end in
  let mixSI := map (convertSample ratio native internal) mixRatio in
  prop <- getDynamicPropertySI self property phase activeCell pressSI mixSI ;;
  match usys_output_ self with
  | None => Return prop
  | Some output =>
    let q := match property, phase with
             | RawCurve.Viscosity, _ => Convert.Viscosity
             | _, ECLPhaseIndex.Vapour => Convert.GasFVF
             | _, _ => Convert.OilFVF
             end in
    Return (map (convertSample q internal output) prop)
  end.

(** The invariant the constructor is relied on to establish: both owned unit
    systems are set, and the region vector respects [max_size]. *)
Definition class_invariant (self : ECLPvtCurveCollection) : Prop :=
  is_null (usys_native_ self) = false
  /\ is_null (usys_internal_ self) = false
  /\ Z.of_nat (List.length (pvtnum_ self)) <= vector_max_size.

Definition bad_phase (phase : ECLPhaseIndex.t) : Prop :=
  phase <> ECLPhaseIndex.Liquid /\ phase <> ECLPhaseIndex.Vapour.

Definition cell_out_of_range (self : ECLPvtCurveCollection) (activeCell : Z)
  : Prop :=
  Z.of_nat (List.length (pvtnum_ self)) <= activeCell.

Definition cell_in_range (self : ECLPvtCurveCollection) (activeCell : Z)
  : Prop :=
  0 <= activeCell < Z.of_nat (List.length (pvtnum_ self)).

Definition absent_interpolant (self : ECLPvtCurveCollection)
  (phase : ECLPhaseIndex.t) : Prop :=
  (phase = ECLPhaseIndex.Liquid /\ oil_ self = None)
  \/ (phase = ECLPhaseIndex.Vapour /\ gas_ self = None).

(** The axis table the three curve converters implement: the quantity the
    abscissas are converted as, given the curve kind, the phase and the number
    of series, and the quantity the ordinates are converted as. *)
Definition xQuantity (curve : RawCurve.t) (phase : ECLPhaseIndex.t)
  (series : nat) : Convert.Quantity :=
  match curve, phase with
  | RawCurve.SaturatedState, _ => Convert.Pressure
  | _, ECLPhaseIndex.Liquid => Convert.Pressure
  | _, _ =>
      if (series <=? 1)%nat then Convert.Pressure
      else Convert.VaporisedOilGasRatio
  end.

Definition yQuantity (curve : RawCurve.t) (phase : ECLPhaseIndex.t)
  : Convert.Quantity :=
  match curve, phase with
  | RawCurve.FVF, ECLPhaseIndex.Liquid => Convert.OilFVF
  | RawCurve.FVF, _ => Convert.GasFVF
  | RawCurve.SaturatedState, ECLPhaseIndex.Liquid =>
      Convert.DissolvedGasOilRatio
  | RawCurve.SaturatedState, _ => Convert.VaporisedOilGasRatio
  | _, _ => Convert.Viscosity
  end.

(** The mixing ratios a property is evaluated at: the caller's, or zeros as
    many as there are pressures when the caller passed none. *)
Definition effectiveRatio (press mixRatio : list double) : list double :=
  if is_empty mixRatio then repeat zero (List.length press) else mixRatio.


(** Two collections that agree on all but the gas interpolant, and on all
    but the oil interpolant. *)
Definition same_but_gas (a b : ECLPvtCurveCollection) : Prop :=
  pvtnum_ a = pvtnum_ b
  /\ oil_ a = oil_ b
  /\ usys_native_ a = usys_native_ b
  /\ usys_internal_ a = usys_internal_ b
  /\ usys_output_ a = usys_output_ b.

Definition same_but_oil (a b : ECLPvtCurveCollection) : Prop :=
  pvtnum_ a = pvtnum_ b
  /\ gas_ a = gas_ b
  /\ usys_native_ a = usys_native_ b
  /\ usys_internal_ a = usys_internal_ b
  /\ usys_output_ a = usys_output_ b.

End Collection.

Arguments ECLPvtCurveCollection {units} Gas Oil.

(** ** A small simulation case

    Collaborators simple enough to evaluate: samples are integers, a
    converter multiplies by a factor that identifies its quantity, and an
    interpolant is a table that knows how many regions it has. *)

Module Case.

Inductive Units : Type := SI | Metric | Field.

Definition Units_eqb (a b : Units) : bool :=
  match a, b with
  | SI, SI | Metric, Metric | Field, Field => true
  | _, _ => false
  end.

Definition factor (q : Convert.Quantity) : Z :=
  match q with
  | Convert.Pressure => 2
  | Convert.OilFVF => 3
  | Convert.GasFVF => 5
  | Convert.Viscosity => 7
  | Convert.DissolvedGasOilRatio => 11
  | Convert.VaporisedOilGasRatio => 13
  end.

Definition scale (q : Convert.Quantity) (from to : Units) (x : Z) : Z :=
  if Units_eqb from to then x else x * factor q.

#[global] Instance case_units : UnitConversion := {|
  double := Z;
  zero := 0;
  UnitSystem := Units;
  convertSample := scale
|}.

(** Assertions are compiled in. *)
#[global] Instance debug_build : Build := {| NDEBUG := false |}.

Record Table : Type := {
  curves : list (list Z * list Z);
  regions : Z
}.

Definition in_table (t : Table) (regID : Z) : bool :=
  (0 <=? regID) && (regID <? regions t).

Definition table_curve (t : Table) (curve : RawCurve.t) (regID : Z)
  : outcome (list (list Z * list Z)) :=
  if in_table t regID then Return (curves t)
  else Raise (invalid_argument "Region ID out of range").

Definition table_fvf (t : Table) (regID : Z) (R press : list Z)
  : outcome (list Z) :=
  if in_table t regID
  then Return (map (fun rp => 100 + fst rp + snd rp) (combine R press))
  else Raise (invalid_argument "Region ID out of range").

Definition table_viscosity (t : Table) (regID : Z) (R press : list Z)
  : outcome (list Z) :=
  if in_table t regID
  then Return (map (fun rp => fst rp + 2 * snd rp) (combine R press))
  else Raise (invalid_argument "Region ID out of range").

#[global] Instance table_interp : PVTInterp Table := {|
  pvt_getPvtCurve := table_curve;
  pvt_formationVolumeFactor := table_fvf;
  pvt_viscosity := table_viscosity
|}.

Record Init : Type := {
  pvtnum_data : list Z;
  gas_table : option Table;
  oil_table : option Table;
  native_units : Units
}.

Definition cellData (G : nat) (init : Init) (keyword : string) : list Z :=
  if String.eqb keyword "PVTNUM" then pvtnum_data init else [].

#[global] Instance case_output : ECLOutput Table Table := {|
  ECLGraph := nat;
  ECLInitFileData := Init;
  rawLinearisedCellData := cellData;
  numCells := fun cells => cells;
  createGasPVTInterpolant := gas_table;
  createOilPVTInterpolant := oil_table;
  serialisedUnitConventions := fun init => Some (native_units init);
  internalUnitConventions := Some SI
|}.

Definition oilTable : Table :=
  {| curves := [([10; 20], [1; 2])]; regions := 2 |}.

Definition gasTable : Table :=
  {| curves := [([1; 2], [3; 4]); ([5; 6], [7; 8])]; regions := 2 |}.

Definition oneSeries : list Graph := [([1; 2], [3; 4])].

Definition twoSeries : list Graph := [([1; 2], [3; 4]); ([5; 6], [7; 8])].

(** Three cells with region tags 1, 1, 2, and both interpolants. *)
Definition taggedGrid : ECLGraph := 3%nat.

Definition taggedInit : ECLInitFileData :=
  {| pvtnum_data := [1; 1; 2];
     gas_table := Some gasTable;
     oil_table := Some oilTable;
     native_units := Field |}.

Definition tagged : ECLPvtCurveCollection Table Table :=
  construct taggedGrid taggedInit.

(** Ten cells, no PVTNUM data, and no oil interpolant. *)
Definition untaggedGrid : ECLGraph := 10%nat.

Definition untaggedInit : ECLInitFileData :=
  {| pvtnum_data := [];
     gas_table := Some gasTable;
     oil_table := None;
     native_units := Metric |}.

Definition untagged : ECLPvtCurveCollection Table Table :=
  construct untaggedGrid untaggedInit.

(** A release build: assertions are compiled out. *)
Definition release_build : Build := {| NDEBUG := true |}.

(** A second converter family, which shifts a sample by a multiple of the
    distance between the two unit systems and so can be undone. *)
Definition level (u : Units) : Z :=
  match u with
  | SI => 0
  | Metric => 1
  | Field => 2
  end.

Definition shift (q : Convert.Quantity) (from to : Units) (x : Z) : Z :=
  x + factor q * (level to - level from).

Definition shift_units : UnitConversion := {|
  double := Z;
  zero := 0;
  UnitSystem := Units;
  convertSample := shift
|}.




(** Five cells in the grid but PVTNUM data for two only; native units are
    the internal ones. *)
Definition shortGrid : ECLGraph := 5%nat.

Definition shortInit : ECLInitFileData :=
  {| pvtnum_data := [2; 1];
     gas_table := Some gasTable;
     oil_table := Some oilTable;
     native_units := SI |}.

Definition short : ECLPvtCurveCollection Table Table :=
  construct shortGrid shortInit.

(** [tagged] with another gas table. *)
Definition otherGasTable : Table :=
  {| curves := [([9], [9])]; regions := 1 |}.

Definition taggedOtherGas : ECLPvtCurveCollection Table Table :=
  construct taggedGrid
    {| pvtnum_data := [1; 1; 2];
       gas_table := Some otherGasTable;
       oil_table := Some oilTable;
       native_units := Field |}.

End Case.

(** ** Properties *)

Section Properties.

Context {units : UnitConversion} {build : Build}.
Context {Gas Oil : Type}.
Context {gasInterp : PVTInterp Gas} {oilInterp : PVTInterp Oil}.
Context {eclOutput : ECLOutput Gas Oil}.

(** *** Integers and requests *)

Lemma static_cast_size_nonneg (i : Z) :
  0 <= i -> is_int i -> static_cast_size i = i.
Proof.
  unfold is_int, int_max, static_cast_size, size_modulus.
  intros H0 [_ H1]. apply Z.mod_small. lia.
Qed.

Lemma static_cast_size_negative (i : Z) :
  i < 0 -> is_int i -> static_cast_size i = i + 2 ^ 64.
Proof.
  unfold is_int, int_min, static_cast_size, size_modulus.
  intros H0 [H1 _]. symmetry. apply Z.mod_unique with (q := -1); lia.
Qed.

Lemma int_sub_exact (a b : Z) :
  is_int (a - b) -> int_sub a b = a - b.
Proof.
  unfold is_int, int_min, int_max, int_sub, to_int. intros [Hlo Hhi].
  rewrite Z.mod_small; lia.
Qed.

Lemma is_oil_or_gas_spec (phase : ECLPhaseIndex.t) :
  is_oil_or_gas phase = true
  <-> phase = ECLPhaseIndex.Liquid \/ phase = ECLPhaseIndex.Vapour.
Proof.
  destruct phase; cbn; split; intros H; auto;
    try discriminate; destruct H; discriminate.
Qed.

Lemma bad_phase_not_oil_or_gas (phase : ECLPhaseIndex.t) :
  bad_phase phase -> is_oil_or_gas phase = false.
Proof.
  intros [HL HV]. destruct phase; cbn; congruence.
Qed.

Lemma isValidRequest_true (self : ECLPvtCurveCollection Gas Oil)
  (phase : ECLPhaseIndex.t) (activeCell : Z) :
  isValidRequest self phase activeCell = true ->
  is_oil_or_gas phase = true
  /\ exists tag, vector_at (pvtnum_ self) activeCell = Return tag.
Proof.
  unfold isValidRequest. destruct (is_oil_or_gas phase); cbn; [|discriminate].
  intros H. apply Z.ltb_lt in H. split; [reflexivity|].
  unfold vector_at.
  assert (Hpos : 0 <= static_cast_size activeCell).
  { unfold static_cast_size, size_modulus. apply Z.mod_pos_bound. lia. }
  destruct (nth_error (pvtnum_ self) (Z.to_nat (static_cast_size activeCell)))
    as [tag|] eqn:E.
  - exists tag. reflexivity.
  - apply nth_error_None in E. lia.
Qed.

Lemma isValidRequest_in_range (self : ECLPvtCurveCollection Gas Oil)
  (phase : ECLPhaseIndex.t) (activeCell : Z) :
  is_oil_or_gas phase = true -> is_int activeCell ->
  cell_in_range self activeCell ->
  isValidRequest self phase activeCell = true.
Proof.
  unfold isValidRequest, cell_in_range. intros Hp Hi [H0 H1]. rewrite Hp. cbn.
  rewrite static_cast_size_nonneg by assumption. apply Z.ltb_lt. exact H1.
Qed.

Lemma isValidRequest_bad_phase (self : ECLPvtCurveCollection Gas Oil)
  (phase : ECLPhaseIndex.t) (activeCell : Z) :
  bad_phase phase -> isValidRequest self phase activeCell = false.
Proof.
  intros H. unfold isValidRequest.
  rewrite (bad_phase_not_oil_or_gas _ H). reflexivity.
Qed.

Lemma isValidRequest_out_of_range (self : ECLPvtCurveCollection Gas Oil)
  (phase : ECLPhaseIndex.t) (activeCell : Z) :
  is_int activeCell -> cell_out_of_range self activeCell ->
  isValidRequest self phase activeCell = false.
Proof.
  unfold isValidRequest, cell_out_of_range. intros Hi Hr.
  destruct (is_oil_or_gas phase); cbn; [|reflexivity].
  rewrite static_cast_size_nonneg by (assumption || lia).
  apply Z.ltb_ge. exact Hr.
Qed.

Lemma isValidRequest_negative (self : ECLPvtCurveCollection Gas Oil)
  (phase : ECLPhaseIndex.t) (activeCell : Z) :
  is_int activeCell -> activeCell < 0 ->
  Z.of_nat (List.length (pvtnum_ self)) <= vector_max_size ->
  isValidRequest self phase activeCell = false.
Proof.
  unfold isValidRequest. intros Hi Hneg Hsz.
  destruct (is_oil_or_gas phase); cbn; [|reflexivity].
  rewrite static_cast_size_negative by assumption.
  apply Z.ltb_ge. unfold is_int, int_min in Hi.
  assert (vector_max_size < 2 ^ 64 - 2 ^ 31) by (vm_compute; reflexivity).
  lia.
Qed.

(** An invalid request stops every public operation at its first test. *)
Lemma invalid_request_empty (self : ECLPvtCurveCollection Gas Oil)
  (curve : RawCurve.t) (phase : ECLPhaseIndex.t) (activeCell : Z)
  (phasePress mixRatio : list double) :
  isValidRequest self phase activeCell = false ->
  getPvtCurve self curve phase activeCell = Return emptyFDGraph
  /\ getDynamicPropertySI self curve phase activeCell phasePress mixRatio
     = Return []
  /\ getDynamicPropertyNative self curve phase activeCell phasePress mixRatio
     = Return [].
Proof.
  intros H. unfold getPvtCurve, getDynamicPropertySI, getDynamicPropertyNative.
  rewrite H. cbn. auto.
Qed.

Lemma assert_true (expr : string) : assert_ true expr = Return tt.
Proof. unfold assert_. destruct NDEBUG; reflexivity. Qed.

Lemma convertCurve_axes (qx qy : Convert.Quantity)
  (usysFrom usysTo : UnitSystem) (curve : list Graph) :
  convertCurve curve (cvrt qx usysFrom usysTo) (cvrt qy usysFrom usysTo)
  = axesConverted qx qy usysFrom usysTo curve.
Proof. reflexivity. Qed.

Lemma getPvtCurve_valid (self : ECLPvtCurveCollection Gas Oil)
  (curve : RawCurve.t) (phase : ECLPhaseIndex.t) (activeCell : Z) :
  isValidRequest self phase activeCell = true ->
  getPvtCurve self curve phase activeCell
  = (graph <- unconvertedPvtCurve self curve phase activeCell ;;
     convertToOutputUnits self graph curve phase).
Proof.
  intros H. destruct (isValidRequest_true _ _ _ H) as [Hp [tag Ht]].
  unfold getPvtCurve, unconvertedPvtCurve, resolve. rewrite H, Ht. cbn.
  destruct phase; cbn in *.
  - reflexivity.
  - rewrite assert_true. reflexivity.
  - discriminate.
Qed.

Lemma convertToOutputUnits_no_output (self : ECLPvtCurveCollection Gas Oil)
  (graph : list Graph) (curve : RawCurve.t) (phase : ECLPhaseIndex.t) :
  usys_output_ self = None ->
  convertToOutputUnits self graph curve phase = Return graph.
Proof. intros H. unfold convertToOutputUnits. rewrite H. reflexivity. Qed.

Lemma getPvtCurve_no_output (self : ECLPvtCurveCollection Gas Oil)
  (curve : RawCurve.t) (phase : ECLPhaseIndex.t) (activeCell : Z) :
  usys_output_ self = None ->
  getPvtCurve self curve phase activeCell
  = unconvertedPvtCurve self curve phase activeCell.
Proof.
  intros Hout.
  destruct (isValidRequest self phase activeCell) eqn:Hv.
  - rewrite getPvtCurve_valid by assumption.
    destruct (unconvertedPvtCurve self curve phase activeCell); cbn.
    + apply convertToOutputUnits_no_output. assumption.
    + reflexivity.
  - unfold getPvtCurve, unconvertedPvtCurve. rewrite Hv. reflexivity.
Qed.

(** *** Axis selection *)

(** C1.  For the Vapour phase, an FVF or Viscosity curve of at most one
    series has its X axis converted as Pressure, and one of two or more
    series has its X axis converted as VaporisedOilGasRatio; the Y axis is
    converted as GasFVF for FVF and as Viscosity for Viscosity.  For the
    Liquid phase the X axis is converted as Pressure for each of the three
    curve kinds, whatever the series count. *)
Theorem gas_x_axis_follows_series_count (curve : list Graph)
  (usysFrom usysTo : UnitSystem) :
  ((List.length curve <= 1)%nat ->
     convertFvfCurve curve ECLPhaseIndex.Vapour usysFrom usysTo
     = Return (axesConverted Convert.Pressure Convert.GasFVF
                 usysFrom usysTo curve)
     /\ convertViscosityCurve curve ECLPhaseIndex.Vapour usysFrom usysTo
        = Return (axesConverted Convert.Pressure Convert.Viscosity
                    usysFrom usysTo curve))
  /\ ((2 <= List.length curve)%nat ->
     convertFvfCurve curve ECLPhaseIndex.Vapour usysFrom usysTo
     = Return (axesConverted Convert.VaporisedOilGasRatio Convert.GasFVF
                 usysFrom usysTo curve)
     /\ convertViscosityCurve curve ECLPhaseIndex.Vapour usysFrom usysTo
        = Return (axesConverted Convert.VaporisedOilGasRatio Convert.Viscosity
                    usysFrom usysTo curve))
  /\ (convertFvfCurve curve ECLPhaseIndex.Liquid usysFrom usysTo
      = Return (axesConverted Convert.Pressure Convert.OilFVF
                  usysFrom usysTo curve)
      /\ convertViscosityCurve curve ECLPhaseIndex.Liquid usysFrom usysTo
         = Return (axesConverted Convert.Pressure Convert.Viscosity
                     usysFrom usysTo curve)
      /\ convertSatStateCurve curve ECLPhaseIndex.Liquid usysFrom usysTo
         = Return (axesConverted Convert.Pressure Convert.DissolvedGasOilRatio
                     usysFrom usysTo curve)).
Proof.
  unfold convertFvfCurve, convertViscosityCurve, convertSatStateCurve.
  cbn [is_oil_or_gas ECLPhaseIndex.eqb orb].
  rewrite !assert_true. cbn [bind].
  repeat split.
  - apply Nat.leb_le in H. rewrite H. apply f_equal, convertCurve_axes.
  - apply Nat.leb_le in H. rewrite H. apply f_equal, convertCurve_axes.
  - assert (E : (List.length curve <=? 1)%nat = false)
      by (apply Nat.leb_gt; lia).
    rewrite E. apply f_equal, convertCurve_axes.
  - assert (E : (List.length curve <=? 1)%nat = false)
      by (apply Nat.leb_gt; lia).
    rewrite E. apply f_equal, convertCurve_axes.
Qed.

(** C4.  A SaturatedState curve has its X axis converted as Pressure, for
    every series count and for both phases, and its Y axis converted as
    DissolvedGasOilRatio for Liquid and as VaporisedOilGasRatio for Vapour.
    For any phase value at all, a converted curve that is returned has its
    abscissas converted as Pressure. *)
Theorem saturated_state_axes (curve : list Graph)
  (usysFrom usysTo : UnitSystem) :
  convertSatStateCurve curve ECLPhaseIndex.Liquid usysFrom usysTo
  = Return (axesConverted Convert.Pressure Convert.DissolvedGasOilRatio
              usysFrom usysTo curve)
  /\ convertSatStateCurve curve ECLPhaseIndex.Vapour usysFrom usysTo
     = Return (axesConverted Convert.Pressure Convert.VaporisedOilGasRatio
                 usysFrom usysTo curve)
  /\ forall phase : ECLPhaseIndex.t,
       match convertSatStateCurve curve phase usysFrom usysTo with
       | Return converted =>
           map fst converted
           = map (fun g => map (convertSample Convert.Pressure usysFrom usysTo)
                               (fst g)) curve
       | Raise _ => is_oil_or_gas phase = false
       end.
Proof.
  unfold convertSatStateCurve. repeat split.
  - cbn [is_oil_or_gas ECLPhaseIndex.eqb orb]. rewrite assert_true. reflexivity.
  - cbn [is_oil_or_gas ECLPhaseIndex.eqb orb]. rewrite assert_true. reflexivity.
  - intros phase. unfold assert_.
    destruct NDEBUG, phase; cbn; unfold convertCurve;
      rewrite ?map_map; reflexivity.
Qed.

(** *** Output units *)

(** C5.  [setOutputUnits] replaces the output unit system, whatever it was
    before, and leaves the region vector, both interpolants and the native
    and internal unit systems as they were.  With no output unit system,
    that is after construction or after [setOutputUnits] with none,
    [getPvtCurve] yields the curve of the evaluation stage, unconverted. *)
Theorem setOutputUnits_frame (self : ECLPvtCurveCollection Gas Oil)
  (previous usys : option UnitSystem)
  (G : ECLGraph) (init : ECLInitFileData)
  (curve : RawCurve.t) (phase : ECLPhaseIndex.t) (activeCell : Z) :
  (pvtnum_ (setOutputUnits self usys) = pvtnum_ self
   /\ gas_ (setOutputUnits self usys) = gas_ self
   /\ oil_ (setOutputUnits self usys) = oil_ self
   /\ usys_native_ (setOutputUnits self usys) = usys_native_ self
   /\ usys_internal_ (setOutputUnits self usys) = usys_internal_ self)
  /\ usys_output_ (setOutputUnits self usys) = usys
  /\ setOutputUnits (setOutputUnits self previous) usys
     = setOutputUnits self usys
  /\ getPvtCurve (construct G init) curve phase activeCell
     = unconvertedPvtCurve (construct G init) curve phase activeCell
  /\ getPvtCurve (setOutputUnits (setOutputUnits self previous) None)
       curve phase activeCell
     = unconvertedPvtCurve self curve phase activeCell.
Proof.
  split; [repeat split|].
  split; [reflexivity|].
  split; [reflexivity|].
  split.
  - apply getPvtCurve_no_output. reflexivity.
  - rewrite getPvtCurve_no_output by reflexivity. reflexivity.
Qed.

(** C9.  With no output unit system, [convertToOutputUnits] hands back the
    curve it was given for every value of the curve kind, recognised or
    not, so [getPvtCurve] is the evaluation stage alone and the conversion
    stage adds no failure of its own. *)
Theorem no_output_units_ignores_curve_kind
  (self : ECLPvtCurveCollection Gas Oil)
  (graph : list Graph) (curve : RawCurve.t) (phase : ECLPhaseIndex.t)
  (activeCell : Z) :
  usys_output_ self = None ->
  convertToOutputUnits self graph curve phase = Return graph
  /\ getPvtCurve self curve phase activeCell
     = unconvertedPvtCurve self curve phase activeCell.
Proof.
  intros Hout. split.
  - apply convertToOutputUnits_no_output. assumption.
  - apply getPvtCurve_no_output. assumption.
Qed.

Lemma recognised_false_eqb (curve : RawCurve.t) :
  RawCurve.recognised curve = false ->
  RawCurve.eqb curve RawCurve.FVF = false
  /\ RawCurve.eqb curve RawCurve.Viscosity = false
  /\ RawCurve.eqb curve RawCurve.SaturatedState = false.
Proof. destruct curve; cbn; intros H; try discriminate; auto. Qed.

(** C8, as amended.  When an output unit system is set, a curve kind that
    is none of FVF, Viscosity and SaturatedState makes the conversion stage
    fail: for the Liquid and Vapour phases with the exception
    [invalid_argument "Internal Logic Error"], and a request that is valid
    and whose evaluation stage returns a curve fails with that exception
    too, instead of returning a curve. *)
Theorem unrecognised_curve_raises_with_output_units
  (self : ECLPvtCurveCollection Gas Oil) (graph : list Graph)
  (curve : RawCurve.t)
  (phase : ECLPhaseIndex.t) (activeCell : Z) :
  usys_output_ self <> None ->
  RawCurve.recognised curve = false ->
  (exists f, convertToOutputUnits self graph curve phase = Raise f)
  /\ (is_oil_or_gas phase = true ->
      convertToOutputUnits self graph curve phase
      = Raise (invalid_argument "Internal Logic Error"))
  /\ (isValidRequest self phase activeCell = true ->
      unconvertedPvtCurve self curve phase activeCell = Return graph ->
      getPvtCurve self curve phase activeCell
      = Raise (invalid_argument "Internal Logic Error")).
Proof.
  intros Hout Hrec.
  destruct (recognised_false_eqb _ Hrec) as [E1 [E2 E3]].
  assert (Hconv : forall g, is_oil_or_gas phase = true ->
            convertToOutputUnits self g curve phase
            = Raise (invalid_argument "Internal Logic Error")).
  { intros g Hp. unfold convertToOutputUnits.
    destruct (usys_output_ self); [|congruence]. cbn.
    rewrite Hp, assert_true, E1, E2, E3. reflexivity. }
  split; [|split].
  - unfold convertToOutputUnits.
    destruct (usys_output_ self); [|congruence]. cbn.
    rewrite E1, E2, E3. unfold assert_.
    destruct NDEBUG; [|destruct (is_oil_or_gas phase)]; cbn; eauto.
  - apply Hconv.
  - intros Hv Hraw. rewrite getPvtCurve_valid by assumption.
    rewrite Hraw. cbn. apply Hconv.
    apply (isValidRequest_true _ _ _ Hv).
Qed.

(** *** Dynamic properties *)

Lemma convertBetween_set (q : Convert.Quantity) (from to : UnitSystem)
  (x : list double) :
  convertBetween q (Some from) (Some to) x
  = Return (map (convertSample q from to) x).
Proof. reflexivity. Qed.

(** C2.  On a collection whose native and internal unit systems are set,
    for the Liquid and Vapour phases and the FVF and Viscosity properties
    (and every cell index), [getDynamicPropertyNative] is the three-stage
    pipeline: pressures converted as Pressure and mixing ratios as
    DissolvedGasOilRatio (Liquid) or VaporisedOilGasRatio (Vapour) from
    native to internal units, then [getDynamicPropertySI], then the result
    converted from internal to output units as Viscosity, GasFVF or OilFVF
    when an output system is set and returned as it is otherwise. *)
Theorem native_is_three_stage_pipeline (self : ECLPvtCurveCollection Gas Oil)
  (native internal : UnitSystem)
  (property : RawCurve.t) (phase : ECLPhaseIndex.t) (activeCell : Z)
  (phasePress mixRatio : list double) :
  usys_native_ self = Some native ->
  usys_internal_ self = Some internal ->
  phase = ECLPhaseIndex.Liquid \/ phase = ECLPhaseIndex.Vapour ->
  property = RawCurve.FVF \/ property = RawCurve.Viscosity ->
  getDynamicPropertyNative self property phase activeCell phasePress mixRatio
  = nativePipeline self native internal property phase activeCell
      phasePress mixRatio.
Proof.
  intros Hn Hi Hphase Hprop.
  unfold getDynamicPropertyNative, nativePipeline.
  rewrite Hn, Hi. cbn [is_null negb]. rewrite !assert_true. cbn [bind].
  rewrite convertBetween_set. cbn [bind].
  destruct (isValidRequest self phase activeCell) eqn:Hv.
  - assert (Hsat : RawCurve.eqb property RawCurve.SaturatedState = false)
      by (destruct Hprop; subst; reflexivity).
    rewrite Hsat. cbn [negb orb].
    destruct Hphase; subst phase; cbn [ECLPhaseIndex.eqb];
      rewrite ?assert_true; cbn [bind]; rewrite convertBetween_set;
      cbn [bind];
      match goal with
      | |- context [getDynamicPropertySI ?s ?p ?ph ?c ?x ?y] =>
          destruct (getDynamicPropertySI s p ph c x y) as [prop|f]
      end; cbn [bind]; try reflexivity;
      destruct (usys_output_ self) as [output|]; cbn [is_null];
        try reflexivity;
      destruct Hprop; subst property; cbn [RawCurve.eqb];
        rewrite ?assert_true; cbn [bind]; reflexivity.
  - cbn [negb orb].
    unfold getDynamicPropertySI. rewrite Hv. cbn [negb orb bind].
    destruct (usys_output_ self); reflexivity.
Qed.







Lemma getDynamicPropertySI_valid (self : ECLPvtCurveCollection Gas Oil)
  (property : RawCurve.t) (phase : ECLPhaseIndex.t) (activeCell : Z)
  (phasePress mixRatio : list double) :
  isValidRequest self phase activeCell = true ->
  RawCurve.eqb property RawCurve.SaturatedState = false ->
  getDynamicPropertySI self property phase activeCell phasePress mixRatio
  = (regID <- resolve self activeCell ;;
     phaseProperty self property phase regID phasePress mixRatio).
Proof.
  intros H Hsat. destruct (isValidRequest_true _ _ _ H) as [Hp [tag Ht]].
  unfold getDynamicPropertySI, resolve. rewrite H, Hsat, Ht. cbn.
  destruct phase; cbn in *.
  - reflexivity.
  - rewrite assert_true. reflexivity.
  - discriminate.
Qed.

(** *** Requests that yield nothing *)

Lemma absent_phaseCurve (self : ECLPvtCurveCollection Gas Oil)
  (curve : RawCurve.t)
  (phase : ECLPhaseIndex.t) (regID : Z) :
  absent_interpolant self phase ->
  phaseCurve self curve phase regID = Return emptyFDGraph.
Proof.
  intros [[-> H]|[-> H]]; cbn; rewrite H; reflexivity.
Qed.

Lemma absent_phaseProperty (self : ECLPvtCurveCollection Gas Oil)
  (property : RawCurve.t) (phase : ECLPhaseIndex.t) (regID : Z)
  (phasePress mixRatio : list double) :
  absent_interpolant self phase ->
  phaseProperty self property phase regID phasePress mixRatio = Return [].
Proof.
  intros [[-> H]|[-> H]]; cbn; rewrite H; reflexivity.
Qed.

Lemma absent_getDynamicPropertySI (self : ECLPvtCurveCollection Gas Oil)
  (property : RawCurve.t) (phase : ECLPhaseIndex.t) (activeCell : Z)
  (phasePress mixRatio : list double) :
  absent_interpolant self phase ->
  getDynamicPropertySI self property phase activeCell phasePress mixRatio
  = Return [].
Proof.
  intros Habs.
  destruct (isValidRequest self phase activeCell) eqn:Hv;
    [|apply invalid_request_empty; assumption].
  destruct (RawCurve.eqb property RawCurve.SaturatedState) eqn:Hsat.
  - unfold getDynamicPropertySI. rewrite Hv, Hsat. reflexivity.
  - rewrite getDynamicPropertySI_valid by assumption.
    destruct (isValidRequest_true _ _ _ Hv) as [_ [tag Ht]].
    unfold resolve. rewrite Ht. cbn.
    apply absent_phaseProperty. assumption.
Qed.

Lemma convertToOutputUnits_empty (self : ECLPvtCurveCollection Gas Oil)
  (curve : RawCurve.t) (phase : ECLPhaseIndex.t) :
  is_oil_or_gas phase = true ->
  is_null (usys_internal_ self) = false ->
  RawCurve.recognised curve = true ->
  convertToOutputUnits self emptyFDGraph curve phase = Return emptyFDGraph.
Proof.
  intros Hp Hi Hrec. unfold convertToOutputUnits.
  destruct (usys_output_ self) as [output|]; [|reflexivity].
  destruct (usys_internal_ self) as [internal|]; [|discriminate].
  cbn [is_null]. rewrite Hp, assert_true. cbn [bind deref].
  unfold convertFvfCurve, convertViscosityCurve, convertSatStateCurve.
  rewrite Hp, assert_true.
  destruct curve; [| | |discriminate]; destruct phase; try discriminate;
    reflexivity.
Qed.

Lemma absent_getPvtCurve (self : ECLPvtCurveCollection Gas Oil)
  (curve : RawCurve.t)
  (phase : ECLPhaseIndex.t) (activeCell : Z) :
  is_null (usys_internal_ self) = false ->
  absent_interpolant self phase ->
  RawCurve.recognised curve = true \/ usys_output_ self = None ->
  getPvtCurve self curve phase activeCell = Return emptyFDGraph.
Proof.
  intros Hi Habs Hok.
  destruct (isValidRequest self phase activeCell) eqn:Hv;
    [|apply (invalid_request_empty _ curve _ _ [] []); assumption].
  rewrite getPvtCurve_valid by assumption.
  destruct (isValidRequest_true _ _ _ Hv) as [Hp [tag Ht]].
  unfold unconvertedPvtCurve, resolve. rewrite Hv, Ht. cbn.
  rewrite absent_phaseCurve by assumption. cbn.
  destruct Hok as [Hrec|Hout].
  - apply convertToOutputUnits_empty; assumption.
  - apply convertToOutputUnits_no_output. assumption.
Qed.

Lemma absent_getDynamicPropertyNative (self : ECLPvtCurveCollection Gas Oil)
  (property : RawCurve.t) (phase : ECLPhaseIndex.t) (activeCell : Z)
  (phasePress mixRatio : list double) :
  is_null (usys_native_ self) = false ->
  is_null (usys_internal_ self) = false ->
  absent_interpolant self phase ->
  RawCurve.recognised property = true \/ usys_output_ self = None ->
  getDynamicPropertyNative self property phase activeCell phasePress mixRatio
  = Return [].
Proof.
  intros Hn Hi Habs Hok. unfold getDynamicPropertyNative.
  destruct (negb (isValidRequest self phase activeCell)
            || RawCurve.eqb property RawCurve.SaturatedState) eqn:E;
    [reflexivity|].
  apply orb_false_elim in E as [_ Hsat].
  destruct (usys_native_ self) as [native|]; [|discriminate].
  destruct (usys_internal_ self) as [internal|] eqn:Ei; [|discriminate].
  cbn [is_null negb]. rewrite !assert_true. cbn [bind].
  rewrite convertBetween_set. cbn [bind].
  assert (Hphase : is_oil_or_gas phase = true).
  { apply is_oil_or_gas_spec. destruct Habs as [[-> _]|[-> _]]; auto. }
  assert (Hmix : forall q,
    (if ECLPhaseIndex.eqb phase ECLPhaseIndex.Liquid
     then convertBetween Convert.DissolvedGasOilRatio
            (Some native) (Some internal) mixRatio
     else _ <- assert_ (ECLPhaseIndex.eqb phase ECLPhaseIndex.Vapour) q ;;
          convertBetween Convert.VaporisedOilGasRatio
            (Some native) (Some internal) mixRatio)
    = Return (map (convertSample
                     (match phase with
                      | ECLPhaseIndex.Liquid => Convert.DissolvedGasOilRatio
                      | _ => Convert.VaporisedOilGasRatio
                      end) native internal) mixRatio)).
  { intros q. destruct phase; try discriminate; cbn [ECLPhaseIndex.eqb];
      rewrite ?assert_true; reflexivity. }
  rewrite Hmix. cbn [bind].
  rewrite absent_getDynamicPropertySI by assumption. cbn [bind].
  destruct (usys_output_ self) as [output|]; [|reflexivity].
  cbn [is_null].
  destruct Hok as [Hrec|Hout]; [|discriminate].
  destruct property; cbn in Hsat, Hrec; try discriminate;
    cbn [RawCurve.eqb]; rewrite ?assert_true; cbn [bind];
    destruct phase; try discriminate; cbn [ECLPhaseIndex.eqb];
    rewrite ?assert_true; reflexivity.
Qed.

(** C3, as amended.  On a collection that satisfies the class invariant and
    for an [int] cell index: a phase other than Liquid and Vapour, or a cell
    index not less than the number of cells, makes all three public
    operations return the empty result (a curve of one series without
    samples, or an empty array); so does SaturatedState for the two
    dynamic-property operations; an absent interpolant of the requested
    phase makes [getDynamicPropertySI] return the empty array, and makes
    [getPvtCurve] and [getDynamicPropertyNative] return the empty result
    when the curve or property kind is one of FVF, Viscosity and
    SaturatedState or no output unit system is set. *)
Theorem invalid_request_yields_empty (self : ECLPvtCurveCollection Gas Oil)
  (curve : RawCurve.t) (phase : ECLPhaseIndex.t) (activeCell : Z)
  (phasePress mixRatio : list double) :
  class_invariant self ->
  is_int activeCell ->
  (bad_phase phase \/ cell_out_of_range self activeCell
   \/ (absent_interpolant self phase
       /\ (RawCurve.recognised curve = true \/ usys_output_ self = None)) ->
   getPvtCurve self curve phase activeCell = Return emptyFDGraph)
  /\ (bad_phase phase \/ cell_out_of_range self activeCell
      \/ curve = RawCurve.SaturatedState
      \/ absent_interpolant self phase ->
      getDynamicPropertySI self curve phase activeCell phasePress mixRatio
      = Return [])
  /\ (bad_phase phase \/ cell_out_of_range self activeCell
      \/ curve = RawCurve.SaturatedState
      \/ (absent_interpolant self phase
          /\ (RawCurve.recognised curve = true \/ usys_output_ self = None)) ->
      getDynamicPropertyNative self curve phase activeCell phasePress mixRatio
      = Return []).
Proof.
  intros [Hn [Hi _]] Hint.
  assert (Hbad : bad_phase phase \/ cell_out_of_range self activeCell ->
                 isValidRequest self phase activeCell = false).
  { intros [H|H].
    - apply isValidRequest_bad_phase. assumption.
    - apply isValidRequest_out_of_range; assumption. }
  split; [|split].
  - intros [H|[H|[Habs Hok]]].
    + apply (invalid_request_empty _ curve _ _ [] []). auto.
    + apply (invalid_request_empty _ curve _ _ [] []). auto.
    + apply absent_getPvtCurve; assumption.
  - intros [H|[H|[H|Habs]]].
    + apply invalid_request_empty. auto.
    + apply invalid_request_empty. auto.
    + subst curve. unfold getDynamicPropertySI. cbn [RawCurve.eqb].
      rewrite orb_true_r. reflexivity.
    + apply absent_getDynamicPropertySI. assumption.
  - intros [H|[H|[H|[Habs Hok]]]].
    + apply invalid_request_empty. auto.
    + apply invalid_request_empty. auto.
    + subst curve. unfold getDynamicPropertyNative. cbn [RawCurve.eqb].
      rewrite orb_true_r. reflexivity.
    + apply absent_getDynamicPropertyNative; assumption.
Qed.

(** *** Region resolution *)

Lemma pvtnumVector_absent (G : ECLGraph) (init : ECLInitFileData) :
  rawLinearisedCellData G init "PVTNUM" = [] ->
  pvtnumVector G init = repeat 1 (numCells G).
Proof. intros H. unfold pvtnumVector. rewrite H. reflexivity. Qed.

Lemma vector_at_repeat {A : Type} (a : A) (n : nat) (i : Z) :
  is_int i -> 0 <= i < Z.of_nat n -> vector_at (repeat a n) i = Return a.
Proof.
  intros Hi [H0 H1]. unfold vector_at.
  rewrite static_cast_size_nonneg by assumption.
  rewrite nth_error_repeat by lia. reflexivity.
Qed.

Lemma not_SaturatedState_eqb (property : RawCurve.t) :
  property <> RawCurve.SaturatedState ->
  RawCurve.eqb property RawCurve.SaturatedState = false.
Proof. destruct property; cbn; congruence. Qed.

(** C7.  When the data source has no PVTNUM data, the region vector holds
    the tag 1 for each of the grid's cells, and each cell of the grid
    resolves to region 0.  In general, a valid request reads the tag of its
    cell, and the region the interpolants are queried at, by [getPvtCurve]
    and by [getDynamicPropertySI], is that tag less one (in [int]
    arithmetic, which is the exact difference whenever that is an [int]). *)
Theorem absent_region_tags_resolve_to_zero
  (G : ECLGraph) (init : ECLInitFileData) (self : ECLPvtCurveCollection Gas Oil)
  (curve : RawCurve.t) (phase : ECLPhaseIndex.t) (activeCell : Z)
  (phasePress mixRatio : list double) :
  (rawLinearisedCellData G init "PVTNUM" = [] ->
   pvtnum_ (construct G init) = repeat 1 (numCells G)
   /\ (is_int activeCell -> 0 <= activeCell < Z.of_nat (numCells G) ->
       vector_at (pvtnum_ (construct G init)) activeCell = Return 1
       /\ resolve (construct G init) activeCell = Return 0))
  /\ (isValidRequest self phase activeCell = true ->
      (exists tag,
         vector_at (pvtnum_ self) activeCell = Return tag
         /\ resolve self activeCell = Return (int_sub tag 1)
         /\ (is_int (tag - 1) -> resolve self activeCell = Return (tag - 1)))
      /\ getPvtCurve self curve phase activeCell
         = (regID <- resolve self activeCell ;;
            graph <- phaseCurve self curve phase regID ;;
            convertToOutputUnits self graph curve phase)
      /\ (curve <> RawCurve.SaturatedState ->
          getDynamicPropertySI self curve phase activeCell phasePress mixRatio
          = (regID <- resolve self activeCell ;;
             phaseProperty self curve phase regID phasePress mixRatio))).
Proof.
  split.
  - intros Habsent. unfold resolve. cbn [construct pvtnum_].
    rewrite (pvtnumVector_absent _ _ Habsent).
    split; [reflexivity|]. intros Hi Hr.
    rewrite (vector_at_repeat 1 _ _ Hi Hr). split; reflexivity.
  - intros Hv. destruct (isValidRequest_true _ _ _ Hv) as [_ [tag Ht]].
    split; [|split].
    + exists tag. unfold resolve. rewrite Ht. cbn [bind].
      split; [reflexivity|]. split; [reflexivity|].
      intros Hexact. rewrite int_sub_exact by assumption. reflexivity.
    + rewrite getPvtCurve_valid by assumption.
      unfold unconvertedPvtCurve. rewrite Hv. cbn [negb].
      destruct (resolve self activeCell); reflexivity.
    + intros Hns. apply getDynamicPropertySI_valid; [assumption|].
      apply not_SaturatedState_eqb. assumption.
Qed.

(** C10.  For a negative [int] cell index, on a region vector within
    [max_size], the conversion to the unsigned size type yields a value not
    less than the vector's size: [isValidRequest] is false for every phase,
    each public operation returns its empty result, and the vector is not
    read (a read at that index would be outside the vector). *)
Theorem negative_cell_index_is_rejected (self : ECLPvtCurveCollection Gas Oil)
  (curve : RawCurve.t) (phase : ECLPhaseIndex.t) (activeCell : Z)
  (phasePress mixRatio : list double) :
  is_int activeCell ->
  activeCell < 0 ->
  Z.of_nat (List.length (pvtnum_ self)) <= vector_max_size ->
  static_cast_size activeCell = activeCell + 2 ^ 64
  /\ isValidRequest self phase activeCell = false
  /\ getPvtCurve self curve phase activeCell = Return emptyFDGraph
  /\ getDynamicPropertySI self curve phase activeCell phasePress mixRatio
     = Return []
  /\ getDynamicPropertyNative self curve phase activeCell phasePress mixRatio
     = Return []
  /\ vector_at (pvtnum_ self) activeCell = Raise out_of_range_access.
Proof.
  intros Hi Hneg Hsz.
  pose proof (isValidRequest_negative self phase _ Hi Hneg Hsz) as Hv.
  split; [apply static_cast_size_negative; assumption|].
  split; [exact Hv|].
  destruct (invalid_request_empty self curve phase activeCell
              phasePress mixRatio Hv) as [Hcurve [Hsi Hnative]].
  split; [exact Hcurve|]. split; [exact Hsi|]. split; [exact Hnative|].
  unfold vector_at. rewrite static_cast_size_negative by assumption.
  assert (Hbig : vector_max_size < 2 ^ 64 - 2 ^ 31)
    by (vm_compute; reflexivity).
  destruct (nth_error (pvtnum_ self) (Z.to_nat (activeCell + 2 ^ 64)))
    as [tag|] eqn:E; [|reflexivity].
  assert (Hsome : nth_error (pvtnum_ self) (Z.to_nat (activeCell + 2 ^ 64))
                  <> None) by congruence.
  apply nth_error_Some in Hsome.
  unfold is_int, int_min in Hi. lia.
Qed.

End Properties.

(** ** Further properties of the translation unit *)

Section Coverage.

Context {units : UnitConversion} {build : Build}.
Context {Gas Oil : Type}.
Context {gasInterp : PVTInterp Gas} {oilInterp : PVTInterp Oil}.
Context {eclOutput : ECLOutput Gas Oil}.

(** *** Request validation *)

Lemma vector_at_Return_inside {A : Type} (v : list A) (i : Z) (a : A) :
  vector_at v i = Return a ->
  static_cast_size i < Z.of_nat (List.length v).
Proof.
  unfold vector_at. intros H.
  destruct (nth_error v (Z.to_nat (static_cast_size i))) eqn:E;
    [|discriminate].
  assert (Hs : nth_error v (Z.to_nat (static_cast_size i)) <> None)
    by congruence.
  apply nth_error_Some in Hs.
  assert (0 <= static_cast_size i).
  { unfold static_cast_size, size_modulus. apply Z.mod_pos_bound. lia. }
  lia.
Qed.

Lemma isValidRequest_of_read (self : ECLPvtCurveCollection Gas Oil)
  (phase : ECLPhaseIndex.t) (activeCell tag : Z) :
  is_oil_or_gas phase = true ->
  vector_at (pvtnum_ self) activeCell = Return tag ->
  isValidRequest self phase activeCell = true.
Proof.
  intros Hp Ht. unfold isValidRequest. rewrite Hp. cbn [negb].
  apply Z.ltb_lt. apply (vector_at_Return_inside _ _ _ Ht).
Qed.

(** X1.  For an [int] cell index and a region vector within [max_size],
    [isValidRequest] accepts a request exactly when the phase is Liquid or
    Vapour and the cell index is at least zero and less than the number of
    region tags. *)
Theorem isValidRequest_iff (self : ECLPvtCurveCollection Gas Oil)
  (phase : ECLPhaseIndex.t) (activeCell : Z) :
  is_int activeCell ->
  Z.of_nat (List.length (pvtnum_ self)) <= vector_max_size ->
  (isValidRequest self phase activeCell = true
   <-> (phase = ECLPhaseIndex.Liquid \/ phase = ECLPhaseIndex.Vapour)
       /\ 0 <= activeCell < Z.of_nat (List.length (pvtnum_ self))).
Proof.
  intros Hint Hsz. split.
  - intros Hv. split.
    + apply is_oil_or_gas_spec. apply (isValidRequest_true _ _ _ Hv).
    + destruct (Z_lt_ge_dec activeCell 0) as [Hneg|Hpos].
      * rewrite (isValidRequest_negative self phase _ Hint Hneg Hsz) in Hv.
        discriminate.
      * split; [lia|].
        destruct (Z_lt_ge_dec activeCell
                    (Z.of_nat (List.length (pvtnum_ self)))) as [Hlt|Hge];
          [exact Hlt|].
        rewrite (isValidRequest_out_of_range self phase _ Hint) in Hv;
          [discriminate|].
        unfold cell_out_of_range. lia.
  - intros [Hp Hr]. apply isValidRequest_in_range; try assumption.
    apply is_oil_or_gas_spec. assumption.
Qed.

(** X2.  Whatever the request, the region vector is read inside its bounds
    or not at all: either the request is accepted and the read of the cell's
    tag succeeds, or it is rejected and each public operation returns its
    empty result without that read. *)
Theorem region_vector_read_in_bounds (self : ECLPvtCurveCollection Gas Oil)
  (curve : RawCurve.t) (phase : ECLPhaseIndex.t) (activeCell : Z)
  (phasePress mixRatio : list double) :
  (isValidRequest self phase activeCell = true
   /\ exists tag, vector_at (pvtnum_ self) activeCell = Return tag)
  \/ (isValidRequest self phase activeCell = false
      /\ getPvtCurve self curve phase activeCell = Return emptyFDGraph
      /\ getDynamicPropertySI self curve phase activeCell phasePress mixRatio
         = Return []
      /\ getDynamicPropertyNative self curve phase activeCell
           phasePress mixRatio
         = Return []).
Proof.
  destruct (isValidRequest self phase activeCell) eqn:Hv.
  - left. split; [reflexivity|]. apply (isValidRequest_true _ _ _ Hv).
  - right. split; [reflexivity|]. apply invalid_request_empty. exact Hv.
Qed.

Lemma is_empty_false_iff {A : Type} (v : list A) :
  v <> [] -> is_empty v = false.
Proof. destruct v; [congruence|reflexivity]. Qed.

(** X3.  PVTNUM data that is present becomes the region vector as it is,
    whatever the grid's cell count, so the cells a request may name are
    those the data covers.  A grid of at least one cell never yields an
    empty region vector, and its first cell is a valid request for the
    Liquid and the Vapour phase. *)
Theorem region_vector_of_constructor (G : ECLGraph) (init : ECLInitFileData)
  (phase : ECLPhaseIndex.t) :
  (rawLinearisedCellData G init "PVTNUM" <> [] ->
   pvtnum_ (construct G init) = rawLinearisedCellData G init "PVTNUM")
  /\ ((0 < numCells G)%nat ->
      pvtnum_ (construct G init) <> []
      /\ (is_oil_or_gas phase = true ->
          isValidRequest (construct G init) phase 0 = true)).
Proof.
  split.
  - intros Hraw. cbn [construct pvtnum_]. unfold pvtnumVector.
    rewrite (is_empty_false_iff _ Hraw). reflexivity.
  - intros Hcells.
    assert (Hne : pvtnum_ (construct G init) <> []).
    { cbn [construct pvtnum_]. unfold pvtnumVector.
      destruct (rawLinearisedCellData G init "PVTNUM") as [|t raw] eqn:E.
      - cbn [is_empty]. destruct (numCells G); [lia|discriminate].
      - cbn [is_empty]. discriminate. }
    split; [exact Hne|]. intros Hp. unfold isValidRequest. rewrite Hp.
    cbn [negb]. apply Z.ltb_lt.
    destruct (pvtnum_ (construct G init)); [congruence|].
    cbn [List.length]. change (static_cast_size 0) with 0. lia.
Qed.

(** *** Dynamic properties at the interpolants *)

Lemma getDynamicPropertySI_at (self : ECLPvtCurveCollection Gas Oil)
  (property : RawCurve.t) (phase : ECLPhaseIndex.t) (activeCell tag : Z)
  (phasePress mixRatio : list double) :
  is_oil_or_gas phase = true ->
  RawCurve.eqb property RawCurve.SaturatedState = false ->
  vector_at (pvtnum_ self) activeCell = Return tag ->
  getDynamicPropertySI self property phase activeCell phasePress mixRatio
  = phaseProperty self property phase (int_sub tag 1) phasePress mixRatio.
Proof.
  intros Hp Hsat Ht.
  rewrite getDynamicPropertySI_valid;
    [|apply (isValidRequest_of_read _ _ _ _ Hp Ht)|exact Hsat].
  unfold resolve. rewrite Ht. reflexivity.
Qed.

(** X4.  A dynamic-property request for a cell whose tag can be read, and
    whose phase has an interpolant, is answered by that interpolant alone:
    FVF by its [formationVolumeFactor] and Viscosity by its [viscosity],
    each at the region [tag - 1], with the mixing ratios (defaulted to zeros
    when none were given) passed before the pressures.  No assertion fails
    on the way. *)
Theorem dynamic_property_reaches_interpolant
  (self : ECLPvtCurveCollection Gas Oil) (activeCell tag : Z)
  (phasePress mixRatio : list double) (oil : Oil) (gas : Gas) :
  vector_at (pvtnum_ self) activeCell = Return tag ->
  (oil_ self = Some oil ->
   getDynamicPropertySI self RawCurve.FVF ECLPhaseIndex.Liquid activeCell
     phasePress mixRatio
   = pvt_formationVolumeFactor oil (int_sub tag 1)
       (effectiveRatio phasePress mixRatio) phasePress
   /\ getDynamicPropertySI self RawCurve.Viscosity ECLPhaseIndex.Liquid
        activeCell phasePress mixRatio
      = pvt_viscosity oil (int_sub tag 1)
          (effectiveRatio phasePress mixRatio) phasePress)
  /\ (gas_ self = Some gas ->
      getDynamicPropertySI self RawCurve.FVF ECLPhaseIndex.Vapour activeCell
        phasePress mixRatio
      = pvt_formationVolumeFactor gas (int_sub tag 1)
          (effectiveRatio phasePress mixRatio) phasePress
      /\ getDynamicPropertySI self RawCurve.Viscosity ECLPhaseIndex.Vapour
           activeCell phasePress mixRatio
         = pvt_viscosity gas (int_sub tag 1)
             (effectiveRatio phasePress mixRatio) phasePress).
Proof.
  intros Ht. split; intros Hpvt; split;
    rewrite getDynamicPropertySI_at with (tag := tag)
      by (reflexivity || exact Ht);
    cbn [phaseProperty]; rewrite Hpvt;
    unfold oilProperty, gasProperty, formationVolumeFactor, viscosity;
    cbn [is_null negb RawCurve.eqb orb]; rewrite !assert_true;
    reflexivity.
Qed.

(** X5.  A property value that is none of FVF, Viscosity and
    SaturatedState passes the guard of [getDynamicPropertySI]; with an
    interpolant present, a build with assertions stops at the assertion of
    [oilProperty] or [gasProperty], and a build without them evaluates the
    viscosity. *)
Theorem unrecognised_property_asserts_or_is_viscosity
  (self : ECLPvtCurveCollection Gas Oil) (property : RawCurve.t)
  (activeCell tag : Z) (phasePress mixRatio : list double)
  (oil : Oil) (gas : Gas) :
  RawCurve.recognised property = false ->
  vector_at (pvtnum_ self) activeCell = Return tag ->
  (oil_ self = Some oil ->
   getDynamicPropertySI self property ECLPhaseIndex.Liquid activeCell
     phasePress mixRatio
   = if NDEBUG
     then pvt_viscosity oil (int_sub tag 1)
            (effectiveRatio phasePress mixRatio) phasePress
     else Raise (assertion_failed
                   "property == FVF || property == Viscosity"))
  /\ (gas_ self = Some gas ->
      getDynamicPropertySI self property ECLPhaseIndex.Vapour activeCell
        phasePress mixRatio
      = if NDEBUG
        then pvt_viscosity gas (int_sub tag 1)
               (effectiveRatio phasePress mixRatio) phasePress
        else Raise (assertion_failed
                      "property == FVF || property == Viscosity")).
Proof.
  intros Hrec Ht.
  destruct (recognised_false_eqb _ Hrec) as [E1 [E2 E3]].
  split; intros Hpvt;
    rewrite getDynamicPropertySI_at with (tag := tag)
      by (reflexivity || assumption);
    cbn [phaseProperty]; rewrite Hpvt;
    unfold oilProperty, gasProperty, viscosity, assert_;
    cbn [is_null negb]; rewrite E1, E2; cbn [orb];
    destruct NDEBUG; reflexivity.
Qed.

(** *** The axis table *)

Lemma convertFvfCurve_table (curve : list Graph) (phase : ECLPhaseIndex.t)
  (usysFrom usysTo : UnitSystem) :
  is_oil_or_gas phase = true ->
  convertFvfCurve curve phase usysFrom usysTo
  = Return (axesConverted
              (xQuantity RawCurve.FVF phase (List.length curve))
              (yQuantity RawCurve.FVF phase) usysFrom usysTo curve).
Proof.
  intros Hp. unfold convertFvfCurve. rewrite Hp, assert_true. cbn [bind].
  destruct phase; try discriminate; cbn [ECLPhaseIndex.eqb xQuantity yQuantity].
  - reflexivity.
  - destruct (List.length curve <=? 1)%nat; reflexivity.
Qed.

Lemma convertViscosityCurve_table (curve : list Graph)
  (phase : ECLPhaseIndex.t) (usysFrom usysTo : UnitSystem) :
  is_oil_or_gas phase = true ->
  convertViscosityCurve curve phase usysFrom usysTo
  = Return (axesConverted
              (xQuantity RawCurve.Viscosity phase (List.length curve))
              (yQuantity RawCurve.Viscosity phase) usysFrom usysTo curve).
Proof.
  intros Hp. unfold convertViscosityCurve. rewrite Hp, assert_true.
  cbn [bind].
  destruct phase; try discriminate;
    cbn [ECLPhaseIndex.eqb xQuantity yQuantity orb].
  - reflexivity.
  - destruct (List.length curve <=? 1)%nat; reflexivity.
Qed.

Lemma convertSatStateCurve_table (curve : list Graph)
  (phase : ECLPhaseIndex.t) (usysFrom usysTo : UnitSystem) :
  is_oil_or_gas phase = true ->
  convertSatStateCurve curve phase usysFrom usysTo
  = Return (axesConverted
              (xQuantity RawCurve.SaturatedState phase (List.length curve))
              (yQuantity RawCurve.SaturatedState phase)
              usysFrom usysTo curve).
Proof.
  intros Hp. unfold convertSatStateCurve. rewrite Hp, assert_true.
  cbn [bind].
  destruct phase; try discriminate; reflexivity.
Qed.

Lemma convertToOutputUnits_table (self : ECLPvtCurveCollection Gas Oil)
  (graph : list Graph) (curve : RawCurve.t) (phase : ECLPhaseIndex.t)
  (internal output : UnitSystem) :
  is_oil_or_gas phase = true ->
  RawCurve.recognised curve = true ->
  usys_internal_ self = Some internal ->
  usys_output_ self = Some output ->
  convertToOutputUnits self graph curve phase
  = Return (axesConverted (xQuantity curve phase (List.length graph))
              (yQuantity curve phase) internal output graph).
Proof.
  intros Hp Hrec Hi Ho. unfold convertToOutputUnits.
  rewrite Hi, Ho, Hp, assert_true. cbn [is_null bind deref].
  destruct curve; try discriminate; cbn [RawCurve.eqb].
  - apply convertFvfCurve_table. exact Hp.
  - apply convertViscosityCurve_table. exact Hp.
  - apply convertSatStateCurve_table. exact Hp.
Qed.

(** X6.  With an output unit system set, a valid [getPvtCurve] request for
    one of the three curve kinds is the curve of the evaluation stage with
    its abscissas and ordinates converted from internal to output units as
    the quantities of the axis table, looked up at the curve kind, the phase
    and the number of series of that curve; the conversion stage itself
    never fails.  The number of series is unchanged. *)
Theorem getPvtCurve_converts_by_axis_table
  (self : ECLPvtCurveCollection Gas Oil) (curve : RawCurve.t)
  (phase : ECLPhaseIndex.t) (activeCell : Z)
  (internal output : UnitSystem) :
  isValidRequest self phase activeCell = true ->
  RawCurve.recognised curve = true ->
  usys_internal_ self = Some internal ->
  usys_output_ self = Some output ->
  getPvtCurve self curve phase activeCell
  = (graph <- unconvertedPvtCurve self curve phase activeCell ;;
     Return (axesConverted (xQuantity curve phase (List.length graph))
               (yQuantity curve phase) internal output graph))
  /\ forall graph converted,
       unconvertedPvtCurve self curve phase activeCell = Return graph ->
       getPvtCurve self curve phase activeCell = Return converted ->
       List.length converted = List.length graph.
Proof.
  intros Hv Hrec Hi Ho.
  pose proof (proj1 (isValidRequest_true _ _ _ Hv)) as Hp.
  assert (Heq : getPvtCurve self curve phase activeCell
    = (graph <- unconvertedPvtCurve self curve phase activeCell ;;
       Return (axesConverted (xQuantity curve phase (List.length graph))
                 (yQuantity curve phase) internal output graph))).
  { rewrite getPvtCurve_valid by exact Hv.
    destruct (unconvertedPvtCurve self curve phase activeCell) as [g|f];
      cbn [bind]; [|reflexivity].
    apply convertToOutputUnits_table; assumption. }
  split; [exact Heq|].
  intros graph converted Hraw Hconv. rewrite Heq, Hraw in Hconv.
  cbn [bind] in Hconv. injection Hconv as <-.
  unfold axesConverted. apply length_map.
Qed.

Lemma axesConverted_length (qx qy : Convert.Quantity)
  (usysFrom usysTo : UnitSystem) (curve : list Graph) :
  List.length (axesConverted qx qy usysFrom usysTo curve)
  = List.length curve.
Proof. unfold axesConverted. apply length_map. Qed.

Lemma axesConverted_undone (qx qy : Convert.Quantity)
  (usysFrom usysTo : UnitSystem) (curve : list Graph) :
  (forall q x,
     convertSample q usysTo usysFrom (convertSample q usysFrom usysTo x)
     = x) ->
  axesConverted qx qy usysTo usysFrom
    (axesConverted qx qy usysFrom usysTo curve)
  = curve.
Proof.
  intros Hback. unfold axesConverted. rewrite map_map.
  transitivity (map (fun g : Graph => g) curve); [|apply map_id].
  apply map_ext. intros [xs ys]. cbn [fst snd]. rewrite !map_map.
  f_equal.
  - transitivity (map (fun x => x) xs); [|apply map_id].
    apply map_ext. intros x. apply Hback.
  - transitivity (map (fun y => y) ys); [|apply map_id].
    apply map_ext. intros y. apply Hback.
Qed.

(** X7.  When converting a sample from one unit system to another and back
    gives the sample again, so does converting a curve there and back with
    each of the three curve converters, for the Liquid and Vapour phases:
    the conversion keeps the number of series, so the way back selects the
    same pair of quantities as the way there. *)
Theorem curve_conversion_round_trip (curve : list Graph)
  (phase : ECLPhaseIndex.t) (usysFrom usysTo : UnitSystem) :
  is_oil_or_gas phase = true ->
  (forall q x,
     convertSample q usysTo usysFrom (convertSample q usysFrom usysTo x)
     = x) ->
  (there <- convertFvfCurve curve phase usysFrom usysTo ;;
   convertFvfCurve there phase usysTo usysFrom) = Return curve
  /\ (there <- convertViscosityCurve curve phase usysFrom usysTo ;;
      convertViscosityCurve there phase usysTo usysFrom) = Return curve
  /\ (there <- convertSatStateCurve curve phase usysFrom usysTo ;;
      convertSatStateCurve there phase usysTo usysFrom) = Return curve.
Proof.
  intros Hp Hback. split; [|split].
  - rewrite convertFvfCurve_table by exact Hp. cbn [bind].
    rewrite convertFvfCurve_table by exact Hp.
    rewrite axesConverted_length, axesConverted_undone by exact Hback.
    reflexivity.
  - rewrite convertViscosityCurve_table by exact Hp. cbn [bind].
    rewrite convertViscosityCurve_table by exact Hp.
    rewrite axesConverted_length, axesConverted_undone by exact Hback.
    reflexivity.
  - rewrite convertSatStateCurve_table by exact Hp. cbn [bind].
    rewrite convertSatStateCurve_table by exact Hp.
    rewrite axesConverted_length, axesConverted_undone by exact Hback.
    reflexivity.
Qed.

(** *** Independence and identity conversions *)

(** X8.  A Liquid request is answered without the gas interpolant and a
    Vapour request without the oil interpolant: two collections that agree
    on everything but the interpolant of the other phase give the same
    outcome for each of the three public operations. *)
Theorem other_phase_interpolant_is_unused
  (a b : ECLPvtCurveCollection Gas Oil) (curve : RawCurve.t)
  (activeCell : Z) (phasePress mixRatio : list double) :
  (same_but_gas a b ->
   getPvtCurve a curve ECLPhaseIndex.Liquid activeCell
   = getPvtCurve b curve ECLPhaseIndex.Liquid activeCell
   /\ getDynamicPropertySI a curve ECLPhaseIndex.Liquid activeCell
        phasePress mixRatio
      = getDynamicPropertySI b curve ECLPhaseIndex.Liquid activeCell
          phasePress mixRatio
   /\ getDynamicPropertyNative a curve ECLPhaseIndex.Liquid activeCell
        phasePress mixRatio
      = getDynamicPropertyNative b curve ECLPhaseIndex.Liquid activeCell
          phasePress mixRatio)
  /\ (same_but_oil a b ->
      getPvtCurve a curve ECLPhaseIndex.Vapour activeCell
      = getPvtCurve b curve ECLPhaseIndex.Vapour activeCell
      /\ getDynamicPropertySI a curve ECLPhaseIndex.Vapour activeCell
           phasePress mixRatio
         = getDynamicPropertySI b curve ECLPhaseIndex.Vapour activeCell
             phasePress mixRatio
      /\ getDynamicPropertyNative a curve ECLPhaseIndex.Vapour activeCell
           phasePress mixRatio
         = getDynamicPropertyNative b curve ECLPhaseIndex.Vapour activeCell
             phasePress mixRatio).
Proof.
  destruct a as [pa ga oa na ia ua], b as [pb gb ob nb ib ub].
  unfold same_but_gas, same_but_oil. cbn [pvtnum_ gas_ oil_ usys_native_
    usys_internal_ usys_output_].
  split; intros (-> & -> & -> & -> & ->); repeat split; reflexivity.
Qed.

Lemma map_identity (f : double -> double) (x : list double) :
  (forall v, f v = v) -> map f x = x.
Proof.
  intros Hf. transitivity (map (fun v => v) x); [|apply map_id].
  apply map_ext. exact Hf.
Qed.

Lemma axesConverted_identity (qx qy : Convert.Quantity) (u : UnitSystem)
  (curve : list Graph) :
  (forall q x, convertSample q u u x = x) ->
  axesConverted qx qy u u curve = curve.
Proof.
  intros Hid. unfold axesConverted.
  transitivity (map (fun g : Graph => g) curve); [|apply map_id].
  apply map_ext. intros [xs ys]. cbn [fst snd].
  rewrite !map_identity by (intros; apply Hid). reflexivity.
Qed.

(** X9.  When a converter between a unit system and itself leaves samples
    as they are, and the native unit system is the internal one,
    [getDynamicPropertyNative] gives the outcome of [getDynamicPropertySI]
    for every request: with no output unit system set, and also with the
    internal system as the output system when the property is one of the
    three named kinds. *)
Theorem native_in_internal_units_is_SI (self : ECLPvtCurveCollection Gas Oil)
  (u : UnitSystem) (property : RawCurve.t) (phase : ECLPhaseIndex.t)
  (activeCell : Z) (phasePress mixRatio : list double) :
  (forall q x, convertSample q u u x = x) ->
  usys_native_ self = Some u ->
  usys_internal_ self = Some u ->
  usys_output_ self = None
  \/ (usys_output_ self = Some u /\ RawCurve.recognised property = true) ->
  getDynamicPropertyNative self property phase activeCell phasePress mixRatio
  = getDynamicPropertySI self property phase activeCell phasePress mixRatio.
Proof.
  intros Hid Hn Hi Hout.
  destruct (negb (isValidRequest self phase activeCell)
            || RawCurve.eqb property RawCurve.SaturatedState) eqn:E.
  - unfold getDynamicPropertyNative, getDynamicPropertySI. rewrite E.
    reflexivity.
  - unfold getDynamicPropertyNative. rewrite E, Hn, Hi.
    apply orb_false_elim in E as [Hv Hsat].
    apply negb_false_iff in Hv.
    pose proof (proj1 (isValidRequest_true _ _ _ Hv)) as Hp.
    cbn [is_null negb]. rewrite !assert_true. cbn [bind].
    rewrite convertBetween_set. cbn [bind].
    rewrite (map_identity _ phasePress) by (intros; apply Hid).
    assert (Hmix : forall q,
      (if ECLPhaseIndex.eqb phase ECLPhaseIndex.Liquid
       then convertBetween Convert.DissolvedGasOilRatio
              (Some u) (Some u) mixRatio
       else _ <- assert_ (ECLPhaseIndex.eqb phase ECLPhaseIndex.Vapour) q ;;
            convertBetween Convert.VaporisedOilGasRatio
              (Some u) (Some u) mixRatio)
      = Return mixRatio).
    { intros q. destruct phase; try discriminate; cbn [ECLPhaseIndex.eqb];
        rewrite ?assert_true; cbn [bind]; rewrite convertBetween_set;
        rewrite map_identity by (intros; apply Hid); reflexivity. }
    rewrite Hmix. cbn [bind].
    destruct (getDynamicPropertySI self property phase activeCell
                phasePress mixRatio) as [prop|f]; [|reflexivity].
    cbn [bind].
    destruct Hout as [Hnone|[Hsome Hrec]].
    + rewrite Hnone. reflexivity.
    + rewrite Hsome. cbn [is_null].
      destruct property; cbn in Hsat, Hrec; try discriminate;
        cbn [RawCurve.eqb]; rewrite ?assert_true; cbn [bind];
        destruct phase; try discriminate; cbn [ECLPhaseIndex.eqb];
        rewrite ?assert_true; cbn [bind]; rewrite convertBetween_set;
        rewrite map_identity by (intros; apply Hid); reflexivity.
Qed.

(** X10.  When a converter between a unit system and itself leaves samples
    as they are, setting the output unit system to the internal one gives,
    for each of the three curve kinds and every request, the curve that
    [getPvtCurve] gives with no output unit system: the unconverted one. *)
Theorem output_in_internal_units_is_unconverted
  (self : ECLPvtCurveCollection Gas Oil) (u : UnitSystem)
  (curve : RawCurve.t) (phase : ECLPhaseIndex.t) (activeCell : Z) :
  (forall q x, convertSample q u u x = x) ->
  usys_internal_ self = Some u ->
  RawCurve.recognised curve = true ->
  getPvtCurve (setOutputUnits self (Some u)) curve phase activeCell
  = unconvertedPvtCurve self curve phase activeCell
  /\ getPvtCurve (setOutputUnits self (Some u)) curve phase activeCell
     = getPvtCurve (setOutputUnits self None) curve phase activeCell.
Proof.
  intros Hid Hi Hrec.
  assert (Heq : getPvtCurve (setOutputUnits self (Some u)) curve phase
                  activeCell
                = unconvertedPvtCurve self curve phase activeCell).
  { destruct (isValidRequest self phase activeCell) eqn:Hv.
    - rewrite getPvtCurve_valid by exact Hv.
      change (unconvertedPvtCurve (setOutputUnits self (Some u)) curve phase
                activeCell)
        with (unconvertedPvtCurve self curve phase activeCell).
      destruct (unconvertedPvtCurve self curve phase activeCell) as [g|f];
        cbn [bind]; [|reflexivity].
      rewrite (convertToOutputUnits_table _ _ _ _ u u);
        [|apply (isValidRequest_true _ _ _ Hv)|exact Hrec|exact Hi
         |reflexivity].
      rewrite axesConverted_identity by exact Hid. reflexivity.
    - unfold getPvtCurve, unconvertedPvtCurve.
      change (isValidRequest (setOutputUnits self (Some u)) phase activeCell)
        with (isValidRequest self phase activeCell).
      rewrite Hv. reflexivity. }
  split; [exact Heq|].
  rewrite Heq.
  rewrite (getPvtCurve_no_output (setOutputUnits self None)) by reflexivity.
  reflexivity.
Qed.

End Coverage.

Section Runs.

Import Case.

Example oil_fvf_at_first_cell :
  getDynamicPropertySI tagged RawCurve.FVF ECLPhaseIndex.Liquid 0 [200] [0]
  = Return [300]
  /\ getDynamicPropertySI tagged RawCurve.FVF ECLPhaseIndex.Liquid 5 [200] [0]
     = Return [].
Proof. split; reflexivity. Qed.

Example gas_curve_in_field_units :
  getPvtCurve (setOutputUnits tagged (Some Field)) RawCurve.FVF
    ECLPhaseIndex.Vapour 0
  = Return [([13; 26], [15; 20]); ([65; 78], [35; 40])]
  /\ getPvtCurve (setOutputUnits tagged (Some Field)) RawCurve.FVF
       ECLPhaseIndex.Liquid 0
     = Return [([20; 40], [3; 6])]
  /\ getPvtCurve (setOutputUnits (setOutputUnits tagged (Some Field)) None)
       RawCurve.FVF ECLPhaseIndex.Vapour 0
     = Return [([1; 2], [3; 4]); ([5; 6], [7; 8])].
Proof. repeat split; reflexivity. Qed.

Example third_cell_is_region_one :
  resolve tagged 2 = Return 1
  /\ getPvtCurve tagged RawCurve.Viscosity ECLPhaseIndex.Liquid 2
     = Return [([10; 20], [1; 2])].
Proof. split; reflexivity. Qed.

Lemma tagged_invariant (usys : option Units) :
  class_invariant (setOutputUnits tagged usys).
Proof.
  split; [reflexivity|]. split; [reflexivity|].
  vm_compute. discriminate.
Defined.

Lemma untagged_invariant (usys : option Units) :
  class_invariant (setOutputUnits untagged usys).
Proof.
  split; [reflexivity|]. split; [reflexivity|].
  vm_compute. discriminate.
Defined.

Lemma small_is_int (z : Z) : -8 <= z <= 8 -> is_int z.
Proof. unfold is_int, int_min, int_max. lia. Defined.

(** One gas series: abscissas scaled as Pressure (factor 2).  Two gas
    series: abscissas scaled as VaporisedOilGasRatio (factor 13). *)
Lemma gas_x_axis_follows_series_count_run :
  convertFvfCurve oneSeries ECLPhaseIndex.Vapour SI Field
  = Return [([2; 4], [15; 20])]
  /\ convertViscosityCurve twoSeries ECLPhaseIndex.Vapour SI Field
     = Return [([13; 26], [21; 28]); ([65; 78], [49; 56])].
Proof.
  split.
  - destruct (gas_x_axis_follows_series_count oneSeries SI Field)
      as [Hone _].
    destruct Hone as [Hfvf _]; [simpl; lia|].
    rewrite Hfvf. reflexivity.
  - destruct (gas_x_axis_follows_series_count twoSeries SI Field)
      as [_ [Hmany _]].
    destruct Hmany as [_ Hvisc]; [simpl; lia|].
    rewrite Hvisc. reflexivity.
Defined.

Lemma native_is_three_stage_pipeline_run :
  getDynamicPropertyNative (setOutputUnits tagged (Some Metric)) RawCurve.FVF
    ECLPhaseIndex.Vapour 2 [10; 20] [1; 2]
  = nativePipeline (setOutputUnits tagged (Some Metric))
      Field SI RawCurve.FVF ECLPhaseIndex.Vapour 2 [10; 20] [1; 2].
Proof.
  apply native_is_three_stage_pipeline.
  - reflexivity.
  - reflexivity.
  - right. reflexivity.
  - left. reflexivity.
Defined.

(** An unrecognised curve kind, the oil interpolant absent and an output
    unit system set: [getPvtCurve] throws instead of returning the empty
    curve. *)
Lemma absent_interpolant_request_can_throw :
  absent_interpolant (setOutputUnits untagged (Some Field))
    ECLPhaseIndex.Liquid
  /\ getPvtCurve (setOutputUnits untagged (Some Field))
       (RawCurve.Unrecognised 7) ECLPhaseIndex.Liquid 0
     = Raise (invalid_argument "Internal Logic Error")
  /\ getPvtCurve (setOutputUnits untagged (Some Field))
       (RawCurve.Unrecognised 7) ECLPhaseIndex.Liquid 0
     <> Return emptyFDGraph.
Proof.
  split; [left; split; reflexivity|].
  split; [reflexivity|]. vm_compute. discriminate.
Qed.

Lemma invalid_request_yields_empty_run :
  getPvtCurve (setOutputUnits untagged (Some Field)) RawCurve.Viscosity
    ECLPhaseIndex.Liquid 3
  = Return emptyFDGraph
  /\ getDynamicPropertySI (setOutputUnits untagged (Some Field))
       RawCurve.SaturatedState ECLPhaseIndex.Vapour 3 [5] [1]
     = Return []
  /\ getDynamicPropertyNative (setOutputUnits untagged (Some Field))
       RawCurve.FVF (ECLPhaseIndex.Other 0) 3 [5] [1]
     = Return [].
Proof.
  assert (Hint : is_int 3) by (apply small_is_int; lia).
  split; [|split].
  - destruct (invalid_request_yields_empty
                (setOutputUnits untagged (Some Field)) RawCurve.Viscosity
                ECLPhaseIndex.Liquid 3 [5] [1]
                (untagged_invariant (Some Field)) Hint) as [Hcurve _].
    apply Hcurve. right. right.
    split; [left; split; reflexivity|left; reflexivity].
  - destruct (invalid_request_yields_empty
                (setOutputUnits untagged (Some Field)) RawCurve.SaturatedState
                ECLPhaseIndex.Vapour 3 [5] [1]
                (untagged_invariant (Some Field)) Hint) as [_ [Hsi _]].
    apply Hsi. right. right. left. reflexivity.
  - destruct (invalid_request_yields_empty
                (setOutputUnits untagged (Some Field)) RawCurve.FVF
                (ECLPhaseIndex.Other 0) 3 [5] [1]
                (untagged_invariant (Some Field)) Hint) as [_ [_ Hnative]].
    apply Hnative. left. split; discriminate.
Defined.




Lemma absent_region_tags_resolve_to_zero_run :
  resolve untagged 7 = Return 0
  /\ getDynamicPropertySI tagged RawCurve.FVF ECLPhaseIndex.Liquid 2 [200] [0]
     = (regID <- resolve tagged 2 ;;
        phaseProperty tagged RawCurve.FVF
          ECLPhaseIndex.Liquid regID [200] [0]).
Proof.
  split.
  - destruct (absent_region_tags_resolve_to_zero
                untaggedGrid untaggedInit
                untagged RawCurve.FVF ECLPhaseIndex.Liquid 7 [] [])
      as [Hdefault _].
    destruct Hdefault as [_ Hcell]; [reflexivity|].
    apply Hcell; [apply small_is_int; lia|].
    change (0 <= 7 < 10). lia.
  - destruct (absent_region_tags_resolve_to_zero
                taggedGrid taggedInit
                tagged RawCurve.FVF ECLPhaseIndex.Liquid 2 [200] [0])
      as [_ Hvalid].
    destruct Hvalid as [_ [_ Hsi]]; [reflexivity|].
    apply Hsi. discriminate.
Defined.

(** No output unit system: an unrecognised curve kind passes the conversion
    stage without any error, and [getPvtCurve] returns a curve. *)
Lemma unrecognised_curve_passes_without_output_units :
  usys_output_ tagged = None
  /\ convertToOutputUnits tagged [([1], [2])] (RawCurve.Unrecognised 7)
       ECLPhaseIndex.Vapour
     = Return [([1], [2])]
  /\ getPvtCurve tagged (RawCurve.Unrecognised 7) ECLPhaseIndex.Vapour 0
     = Return [([1; 2], [3; 4]); ([5; 6], [7; 8])].
Proof. repeat split; reflexivity. Qed.

Lemma unrecognised_curve_raises_with_output_units_run :
  convertToOutputUnits (setOutputUnits tagged (Some Field)) [([1], [2])]
    (RawCurve.Unrecognised 7) ECLPhaseIndex.Vapour
  = Raise (invalid_argument "Internal Logic Error")
  /\ getPvtCurve (setOutputUnits tagged (Some Field)) (RawCurve.Unrecognised 7)
       ECLPhaseIndex.Vapour 0
     = Raise (invalid_argument "Internal Logic Error").
Proof.
  split.
  - destruct (unrecognised_curve_raises_with_output_units
                (setOutputUnits tagged (Some Field)) [([1], [2])]
                (RawCurve.Unrecognised 7) ECLPhaseIndex.Vapour 0)
      as [_ [Hthrow _]]; [discriminate|reflexivity|].
    apply Hthrow. reflexivity.
  - destruct (unrecognised_curve_raises_with_output_units
                (setOutputUnits tagged (Some Field))
                [([1; 2], [3; 4]); ([5; 6], [7; 8])]
                (RawCurve.Unrecognised 7) ECLPhaseIndex.Vapour 0)
      as [_ [_ Hcurve]]; [discriminate|reflexivity|].
    apply Hcurve; reflexivity.
Defined.

Lemma no_output_units_ignores_curve_kind_run :
  convertToOutputUnits tagged [([1], [2])] (RawCurve.Unrecognised 7)
    ECLPhaseIndex.Liquid
  = Return [([1], [2])]
  /\ getPvtCurve tagged (RawCurve.Unrecognised 7) ECLPhaseIndex.Liquid 2
     = unconvertedPvtCurve tagged (RawCurve.Unrecognised 7)
         ECLPhaseIndex.Liquid 2.
Proof.
  apply (no_output_units_ignores_curve_kind tagged).
  reflexivity.
Defined.

Lemma negative_cell_index_is_rejected_run :
  static_cast_size (-1) = -1 + 2 ^ 64
  /\ isValidRequest tagged ECLPhaseIndex.Liquid (-1) = false
  /\ getPvtCurve tagged RawCurve.FVF ECLPhaseIndex.Liquid (-1)
     = Return emptyFDGraph
  /\ getDynamicPropertySI tagged RawCurve.FVF ECLPhaseIndex.Liquid (-1)
       [200] [0]
     = Return []
  /\ getDynamicPropertyNative tagged RawCurve.FVF ECLPhaseIndex.Liquid (-1)
       [200] [0]
     = Return []
  /\ vector_at (pvtnum_ tagged) (-1) = Raise out_of_range_access.
Proof.
  apply (negative_cell_index_is_rejected tagged).
  - apply small_is_int. lia.
  - lia.
  - vm_compute. discriminate.
Defined.

End Runs.

Section CoverageRuns.

Import Case.

Example short_data_bounds_the_cells :
  isValidRequest short ECLPhaseIndex.Liquid 1 = true
  /\ isValidRequest short ECLPhaseIndex.Liquid 2 = false
  /\ getPvtCurve short RawCurve.FVF ECLPhaseIndex.Liquid 4
     = Return emptyFDGraph.
Proof. repeat split; reflexivity. Qed.

Example shift_there_and_back :
  convertFvfCurve (units := shift_units) twoSeries ECLPhaseIndex.Vapour
    SI Field
  = Return [([27; 28], [13; 14]); ([31; 32], [17; 18])].
Proof. reflexivity. Qed.

Lemma isValidRequest_iff_run :
  isValidRequest tagged ECLPhaseIndex.Vapour 2 = true.
Proof.
  apply (isValidRequest_iff tagged ECLPhaseIndex.Vapour 2).
  - apply small_is_int. lia.
  - vm_compute. discriminate.
  - split; [right; reflexivity|]. change (0 <= 2 < 3). lia.
Defined.

Lemma region_vector_of_constructor_run :
  pvtnum_ short = [2; 1]
  /\ isValidRequest untagged ECLPhaseIndex.Vapour 0 = true.
Proof.
  split.
  - destruct (region_vector_of_constructor shortGrid shortInit
                ECLPhaseIndex.Liquid) as [Hdata _].
    apply Hdata. discriminate.
  - destruct (region_vector_of_constructor untaggedGrid untaggedInit
                ECLPhaseIndex.Vapour) as [_ Hcells].
    destruct Hcells as [_ Hfirst].
    + change (0 < 10)%nat. lia.
    + apply Hfirst. reflexivity.
Defined.

Lemma dynamic_property_reaches_interpolant_run :
  getDynamicPropertySI tagged RawCurve.FVF ECLPhaseIndex.Liquid 2 [200] []
  = table_fvf oilTable 1 [0] [200]
  /\ getDynamicPropertySI tagged RawCurve.Viscosity ECLPhaseIndex.Vapour 2
       [200] [3]
     = table_viscosity gasTable 1 [3] [200].
Proof.
  split.
  - destruct (dynamic_property_reaches_interpolant tagged 2 2 [200] []
                oilTable gasTable) as [Hoil _]; [reflexivity|].
    destruct Hoil as [Hfvf _]; [reflexivity|]. exact Hfvf.
  - destruct (dynamic_property_reaches_interpolant tagged 2 2 [200] [3]
                oilTable gasTable) as [_ Hgas]; [reflexivity|].
    destruct Hgas as [_ Hvisc]; [reflexivity|]. exact Hvisc.
Defined.

Lemma unrecognised_property_asserts_or_is_viscosity_run :
  getDynamicPropertySI tagged (RawCurve.Unrecognised 9)
    ECLPhaseIndex.Liquid 0 [200] []
  = Raise (assertion_failed "property == FVF || property == Viscosity")
  /\ getDynamicPropertySI (build := release_build) tagged
       (RawCurve.Unrecognised 9) ECLPhaseIndex.Liquid 0 [200] []
     = Return [400].
Proof.
  split.
  - destruct (unrecognised_property_asserts_or_is_viscosity tagged
                (RawCurve.Unrecognised 9) 0 1 [200] [] oilTable gasTable)
      as [Hoil _]; [reflexivity|reflexivity|].
    apply Hoil. reflexivity.
  - destruct (unrecognised_property_asserts_or_is_viscosity
                (build := release_build) tagged
                (RawCurve.Unrecognised 9) 0 1 [200] [] oilTable gasTable)
      as [Hoil _]; [reflexivity|reflexivity|].
    rewrite Hoil by reflexivity. reflexivity.
Defined.

Lemma getPvtCurve_converts_by_axis_table_run :
  getPvtCurve (setOutputUnits tagged (Some Field)) RawCurve.FVF
    ECLPhaseIndex.Vapour 0
  = (graph <- unconvertedPvtCurve (setOutputUnits tagged (Some Field))
                RawCurve.FVF ECLPhaseIndex.Vapour 0 ;;
     Return (axesConverted
               (xQuantity RawCurve.FVF ECLPhaseIndex.Vapour
                  (List.length graph))
               (yQuantity RawCurve.FVF ECLPhaseIndex.Vapour)
               SI Field graph)).
Proof.
  apply (getPvtCurve_converts_by_axis_table
           (setOutputUnits tagged (Some Field)) RawCurve.FVF
           ECLPhaseIndex.Vapour 0 SI Field); reflexivity.
Defined.

Lemma shift_undone (q : Convert.Quantity) (x : Z) :
  shift q Field SI (shift q SI Field x) = x.
Proof. unfold shift, level. lia. Defined.

Lemma curve_conversion_round_trip_run :
  (there <- convertViscosityCurve (units := shift_units) twoSeries
              ECLPhaseIndex.Vapour SI Field ;;
   convertViscosityCurve (units := shift_units) there
     ECLPhaseIndex.Vapour Field SI)
  = Return twoSeries.
Proof.
  apply (curve_conversion_round_trip (units := shift_units) twoSeries
           ECLPhaseIndex.Vapour SI Field).
  - reflexivity.
  - exact shift_undone.
Defined.

Lemma other_phase_interpolant_is_unused_run :
  getPvtCurve tagged RawCurve.FVF ECLPhaseIndex.Liquid 0
  = getPvtCurve taggedOtherGas RawCurve.FVF ECLPhaseIndex.Liquid 0
  /\ getDynamicPropertySI tagged RawCurve.FVF ECLPhaseIndex.Liquid 0
       [200] [1]
     = getDynamicPropertySI taggedOtherGas RawCurve.FVF
         ECLPhaseIndex.Liquid 0 [200] [1]
  /\ getDynamicPropertyNative tagged RawCurve.FVF ECLPhaseIndex.Liquid 0
       [200] [1]
     = getDynamicPropertyNative taggedOtherGas RawCurve.FVF
         ECLPhaseIndex.Liquid 0 [200] [1].
Proof.
  apply (other_phase_interpolant_is_unused tagged taggedOtherGas).
  repeat split; reflexivity.
Defined.

Lemma scale_same_units (u : Units) (q : Convert.Quantity) (x : Z) :
  scale q u u x = x.
Proof. unfold scale. destruct u; reflexivity. Defined.

Lemma native_in_internal_units_is_SI_run :
  getDynamicPropertyNative short RawCurve.FVF ECLPhaseIndex.Liquid 0
    [200] [3]
  = getDynamicPropertySI short RawCurve.FVF ECLPhaseIndex.Liquid 0
      [200] [3].
Proof.
  apply (native_in_internal_units_is_SI short SI).
  - exact (scale_same_units SI).
  - reflexivity.
  - reflexivity.
  - left. reflexivity.
Defined.

Lemma output_in_internal_units_is_unconverted_run :
  getPvtCurve (setOutputUnits tagged (Some SI)) RawCurve.Viscosity
    ECLPhaseIndex.Vapour 1
  = unconvertedPvtCurve tagged RawCurve.Viscosity ECLPhaseIndex.Vapour 1
  /\ getPvtCurve (setOutputUnits tagged (Some SI)) RawCurve.Viscosity
       ECLPhaseIndex.Vapour 1
     = getPvtCurve (setOutputUnits tagged None) RawCurve.Viscosity
         ECLPhaseIndex.Vapour 1.
Proof.
  apply (output_in_internal_units_is_unconverted tagged SI).
  - exact (scale_same_units SI).
  - reflexivity.
  - reflexivity.
Defined.

End CoverageRuns.
